(** * v0-ocean: the spectral ocean pipeline and the ping-pong heightmap

  A shallow embedding of the GLSL fragment shaders and of the React
  frame callbacks of the spectral pipeline (the second module held in
  [src/App.jsx]) and of [src/Ocean.jsx] (gradient-noise heightmap with
  ping-pong render targets).

  Numbers.  GLSL [float] values are modelled by the real numbers of the
  standard library: rounding, overflow and underflow are outside the
  model.  Operations whose result GLSL leaves undefined (a division by
  zero, [sqrt] of a negative number, [pow] with a negative base, a NaN
  texel read back from a texture) are modelled by [None] in the [glsl]
  monad, so that "no NaN/Inf is produced" reads "the result is [Some]".
  A [None] says that the language promises no value there, not what a
  GPU does: it goes on with an infinity or a NaN and may still end in a
  number.

  Programs.  A fragment program is the function from the texel
  coordinate to the colour it computes.  Whether the program compiles is
  a separate matter ([App.compiles]): the Phillips and time evolution
  programs use [PI], which nothing declares, so a pass with one of them
  on the quad draws nothing. *)

From Stdlib Require Import Reals Lra Lia ZArith List String.
From stdpp Require Import base option list.

Open Scope R_scope.

(** ** GLSL values and built-in functions *)

Module Glsl.

(** A computation of a shader: [None] stands for a result the language
    leaves undefined.  A GPU computes some value there all the same (an
    infinity, a NaN or a number); the model does not say which. *)
Definition glsl (A : Type) : Type := option A.

Record vec2 : Type := Vec2 { x2 : R; y2 : R }.
Record vec3 : Type := Vec3 { x3 : R; y3 : R; z3 : R }.
Record vec4 : Type := Vec4 { x4 : R; y4 : R; z4 : R; w4 : R }.

(** Swizzles used by the shaders. *)
Definition xy (v : vec4) : vec2 := Vec2 (x4 v) (y4 v).
Definition zw (v : vec4) : vec2 := Vec2 (z4 v) (w4 v).
Definition xyz (v : vec4) : vec3 := Vec3 (x4 v) (y4 v) (z4 v).
Definition r4 (v : vec4) : R := x4 v.

(** A bound texture: the texel seen at a coordinate, undefined where the
    pass that wrote it produced an undefined value. *)
Definition sampler2D : Type := vec2 -> glsl vec4.

Definition texture2D (s : sampler2D) (uv : vec2) : glsl vec4 := s uv.

(** [a / b] with a divisor that is not a literal: undefined for [b = 0]. *)
Definition fdiv (a b : R) : glsl R :=
  if Req_dec_T b 0 then None else Some (a / b).

(** [sqrt(x)]: undefined for [x < 0]. *)
Definition fsqrt (x : R) : glsl R :=
  if Rle_dec 0 x then Some (sqrt x) else None.

(** [pow(x, y)]: undefined for [x < 0], and for [x = 0] with [y <= 0]. *)
Definition pow (x y : R) : glsl R :=
  if Rlt_dec x 0 then None
  else if Req_dec_T x 0 then (if Rle_dec y 0 then None else Some 0)
  else Some (Rpower x y).

Definition dot (a b : vec2) : R := x2 a * x2 b + y2 a * y2 b.

(** [length(v)]: the argument of the square root is a sum of squares. *)
Definition length (v : vec2) : R := sqrt (dot v v).

(** [normalize(v)] divides by [length(v)]. *)
Definition normalize (v : vec2) : glsl vec2 :=
  nx ← fdiv (x2 v) (length v);
  ny ← fdiv (y2 v) (length v);
  Some (Vec2 nx ny).

(** Component-wise lifting, as GLSL applies scalar functions and operators
    to vectors. *)
Definition map2 (f : R -> R) (v : vec2) : vec2 := Vec2 (f (x2 v)) (f (y2 v)).

Definition map3 (f : R -> R) (v : vec3) : vec3 :=
  Vec3 (f (x3 v)) (f (y3 v)) (f (z3 v)).

Definition zip2 (f : R -> R -> R) (a b : vec2) : vec2 :=
  Vec2 (f (x2 a) (x2 b)) (f (y2 a) (y2 b)).

Definition zip3 (f : R -> R -> R) (a b : vec3) : vec3 :=
  Vec3 (f (x3 a) (x3 b)) (f (y3 a) (y3 b)) (f (z3 a) (z3 b)).

Definition dot3 (a b : vec3) : R := x3 a * x3 b + y3 a * y3 b + z3 a * z3 b.

(** [floor], [fract], [max] and [abs] on scalars. *)
Definition floor (x : R) : R := IZR (Int_part x).
Definition fract (x : R) : R := x - floor x.
Definition max (a b : R) : R := Rmax a b.
Definition abs (x : R) : R := Rabs x.

End Glsl.

Import Glsl.

(** ** three.js: render targets and the renderer *)

Module Three.

(** The options object passed to every [WebGLRenderTarget] of the two
    files: nearest filtering, RGBA, float texels. *)
Inductive Filter : Type := NearestFilter | LinearFilter.
Inductive PixelFormat : Type := RGBAFormat.
Inductive TextureDataType : Type := UnsignedByteType | FloatType.

Record TargetOptions : Type := {
  minFilter : Filter;
  magFilter : Filter;
  format : PixelFormat;
  type : TextureDataType
}.

(** A [WebGLRenderTarget]: its size, its options and the texels of its
    [.texture]. *)
Record WebGLRenderTarget : Type := {
  width : Z;
  height : Z;
  options : TargetOptions;
  texture : sampler2D
}.

(** A render target object is known by the order of its creation; a
    [Texture] value is the [.texture] of the target it names. *)
Definition TargetRef : Type := nat.
Definition Texture : Type := TargetRef.

(** The renderer [gl]: the render targets created so far, the current
    render target ([None] is [null], the canvas), the canvas, and the
    targets of the [render] calls issued so far, oldest first. *)
Record WebGLRenderer : Type := {
  targets : list WebGLRenderTarget;
  currentTarget : option TargetRef;
  canvas : sampler2D;
  calls : list (option TargetRef)
}.

(** Texels of a texture nobody has rendered to: WebGL clears new storage. *)
Definition cleared : sampler2D := fun _ => Some (Vec4 0 0 0 0).

(** What a sampler whose uniform is [null] reads: three.js binds a texture
    of one texel of zeros. *)
Definition unbound : sampler2D := fun _ => Some (Vec4 0 0 0 0).

Definition fresh : WebGLRenderer :=
  {| targets := []; currentTarget := None; canvas := cleared; calls := [] |}.

(** [new THREE.WebGLRenderTarget(w, h, format)] *)
Definition new_WebGLRenderTarget (w h : Z) (o : TargetOptions)
    (gl : WebGLRenderer) : TargetRef * WebGLRenderer :=
  (List.length (targets gl),
   {| targets := targets gl ++
        [ {| width := w; height := h; options := o; texture := cleared |} ];
      currentTarget := currentTarget gl;
      canvas := canvas gl;
      calls := calls gl |}).

(** [gl.setRenderTarget(t)] *)
Definition setRenderTarget (t : option TargetRef) (gl : WebGLRenderer)
    : WebGLRenderer :=
  {| targets := targets gl; currentTarget := t; canvas := canvas gl;
     calls := calls gl |}.

Definition with_texture (f : sampler2D) (t : WebGLRenderTarget)
    : WebGLRenderTarget :=
  {| width := width t; height := height t; options := options t;
     texture := f |}.

(** [gl.render(scene, camera)] for a scene that holds one quad covering the
    view: the fragment program [frag] runs at every texel of the current
    render target, or of the canvas when the target is [null]. *)
Definition render (frag : vec2 -> glsl vec4) (gl : WebGLRenderer)
    : WebGLRenderer :=
  match currentTarget gl with
  | None =>
      {| targets := targets gl; currentTarget := None; canvas := frag;
         calls := calls gl ++ [None] |}
  | Some i =>
      {| targets := alter (with_texture frag) i (targets gl);
         currentTarget := Some i;
         canvas := canvas gl;
         calls := calls gl ++ [Some i] |}
  end.

(** The texels read through a sampler uniform whose value is [v]. *)
Definition sample (gl : WebGLRenderer) (v : option Texture) : sampler2D :=
  match v with
  | None => unbound
  | Some i =>
      match targets gl !! i with
      | Some t => texture t
      | None => unbound
      end
  end.

(** JavaScript either returns a value or throws. *)
Inductive exn : Type := TypeError | Error (name : string).

Inductive outcome (A : Type) : Type :=
| Returned (a : A)
| Thrown (e : exn).

Arguments Returned {A} a.
Arguments Thrown {A} e.

End Three.

Import Three.

(** ** [src/App.jsx]: the spectral pipeline *)

Module App.

(** *** Constants *)

Definition RESOLUTION : Z := 256.
Definition WIND_SPEED : R := 10.0.
Definition GRAVITY : R := 9.81.

(** [new THREE.Vector2(1, 1).normalize()]: three.js divides by
    [length() || 1]. *)
Definition Vector2_normalize (v : vec2) : vec2 :=
  let l := length v in
  let d := if Req_dec_T l 0 then 1 else l in
  Vec2 (x2 v / d) (y2 v / d).

Definition WIND_DIRECTION : vec2 := Vector2_normalize (Vec2 1 1).

(** Modelled from the spec: the shaders use the name PI without declaring
    it; the spec gives the wave vector as 2π·(uv − 0.5)·N, so PI is the
    circle constant.  The shader functions below say what the programs
    compute once PI is declared so; as shipped the programs that use it do
    not compile ([compiles]). *)
Definition PI : R := Rtrigo1.PI.

(** [vec2(2.0 * PI * (vUv.x - 0.5), 2.0 * PI * (vUv.y - 0.5)) * float(N)],
    the texel's wave vector, shared by the Phillips and the time
    evolution shaders; [N] is the interpolated [${RESOLUTION}]. *)
Definition wave_vector (N : Z) (vUv : vec2) : vec2 :=
  Vec2 (2.0 * PI * (x2 vUv - 0.5) * IZR N) (2.0 * PI * (y2 vUv - 0.5) * IZR N).

(** *** Step 1: Phillips spectrum *)

Record PhillipsUniforms : Type := {
  uWindSpeed : R;
  uWindDirection : vec2;
  uGravity : R;
  uAlpha : R
}.

Definition phillips (u : PhillipsUniforms) (k : vec2) : glsl R :=
  let kLength := length k in
  if Rlt_dec kLength 0.0001 then Some 0.0
  else
    L ← fdiv (uWindSpeed u * uWindSpeed u) (uGravity u);
    nk ← normalize k;
    let kDotW := dot nk (uWindDirection u) in
    p ← pow (L / 1000.0) 2.0;
    let damping := exp (- kLength * kLength * p) in
    e ← fdiv (- 1.0) (kLength * kLength * L * L);
    q ← pow (kDotW * kDotW) 1.0;
    fdiv (uAlpha u * exp e * q * damping)
         (kLength * kLength * kLength * kLength).

Definition phillipsSpectrum_main (N : Z) (u : PhillipsUniforms) (vUv : vec2)
  : glsl vec4 :=
  let k := wave_vector N vUv in
  P ← phillips u k;
  Some (Vec4 P 0.0 0.0 1.0).

(** *** Step 2: initial spectrum *)

Record InitialSpectrumUniforms : Type := {
  uPhillips : option Texture;
  uNoise : option Texture
}.

Definition initialSpectrumShader_uniforms : InitialSpectrumUniforms :=
  {| uPhillips := None; uNoise := None |}.

(** The fragment program, on the two bound textures. *)
Definition initialSpectrum_main (uPhillips uNoise : sampler2D) (vUv : vec2)
  : glsl vec4 :=
  noise ← texture2D uNoise vUv;
  ph ← texture2D uPhillips vUv;
  let phillips := r4 ph in
  s ← fsqrt (phillips / 2.0);
  let h0k := Vec2 (s * x2 (xy noise)) (s * y2 (xy noise)) in
  Some (Vec4 (x2 h0k) (y2 h0k) 0.0 1.0).

(** *** Step 3: FFT shaders, declared with empty programs *)





(** *** Step 4: time evolution *)

Record TimeEvolutionUniforms : Type := {
  uInitialSpectrum : option Texture;
  uTime : R
}.

Definition timeEvolutionShader_uniforms : TimeEvolutionUniforms :=
  {| uInitialSpectrum := None; uTime := 0 |}.

(** The fragment program; [N] and [g] are the interpolated
    [${RESOLUTION}] and [${GRAVITY}]. *)
Definition timeEvolution_main (N : Z) (g : R)
    (uInitialSpectrum : sampler2D) (uTime : R) (vUv : vec2) : glsl vec4 :=
  h0 ← texture2D uInitialSpectrum vUv;
  let h0k := xy h0 in
  let k := wave_vector N vUv in
  w ← fsqrt (g * length k);
  let ht := Vec2 (x2 h0k * cos (w * uTime)) (y2 h0k * cos (w * uTime)) in
  Some (Vec4 (x2 ht) (y2 ht) 0.0 1.0).

(** *** Debug and ocean materials *)

Record DebugUniforms : Type := { uTexture : option Texture }.

Definition debugMaterial_uniforms : DebugUniforms := {| uTexture := None |}.

(** [gl_FragColor = vec4(color.xyz * 0.5 + 0.5, 1.0)] *)
Definition debugMaterial_main (uTexture : sampler2D) (vUv : vec2)
  : glsl vec4 :=
  color ← texture2D uTexture vUv;
  Some (Vec4 (x3 (xyz color) * 0.5 + 0.5) (y3 (xyz color) * 0.5 + 0.5)
             (z3 (xyz color) * 0.5 + 0.5) 1.0).

Record OceanUniforms : Type := {
  ocean_uTime : R;
  uDisplacement : option Texture;
  uNormalMap : option Texture
}.

Definition oceanMaterial_uniforms : OceanUniforms :=
  {| ocean_uTime := 0; uDisplacement := None; uNormalMap := None |}.

(** *** The [Ocean] component *)

(** The constants the module closes over. *)
Record Config : Type := {
  cfg_RESOLUTION : Z;
  cfg_WIND_SPEED : R;
  cfg_WIND_DIRECTION : vec2;
  cfg_GRAVITY : R
}.

Definition config : Config :=
  {| cfg_RESOLUTION := RESOLUTION;
     cfg_WIND_SPEED := WIND_SPEED;
     cfg_WIND_DIRECTION := WIND_DIRECTION;
     cfg_GRAVITY := GRAVITY |}.

(** The [uniforms] of [phillipsSpectrumShader]. *)
Definition phillipsSpectrumShader_uniforms (c : Config) : PhillipsUniforms :=
  {| uWindSpeed := cfg_WIND_SPEED c;
     uWindDirection := cfg_WIND_DIRECTION c;
     uGravity := cfg_GRAVITY c;
     uAlpha := 0.0081 |}.

Definition format : TargetOptions :=
  {| minFilter := NearestFilter;
     magFilter := NearestFilter;
     Three.format := RGBAFormat;
     type := FloatType |}.

Record Fbos : Type := {
  fbo_phillips : TargetRef;
  fbo_initialSpectrum : TargetRef;
  fbo_spectrum : TargetRef;
  fbo_displacement : TargetRef;
  fbo_normals : TargetRef;
  fbo_pingPong : list TargetRef
}.

(** [const fbos = useMemo(() => ..., [])]: seven render targets, created
    in the order of the object literal. *)
Definition create_fbos (c : Config) (gl : WebGLRenderer)
    : Fbos * WebGLRenderer :=
  let N := cfg_RESOLUTION c in
  let '(t_phillips, gl) := new_WebGLRenderTarget N N format gl in
  let '(t_initial, gl) := new_WebGLRenderTarget N N format gl in
  let '(t_spectrum, gl) := new_WebGLRenderTarget N N format gl in
  let '(t_displacement, gl) := new_WebGLRenderTarget N N format gl in
  let '(t_normals, gl) := new_WebGLRenderTarget N N format gl in
  let '(t_ping, gl) := new_WebGLRenderTarget N N format gl in
  let '(t_pong, gl) := new_WebGLRenderTarget N N format gl in
  ({| fbo_phillips := t_phillips;
      fbo_initialSpectrum := t_initial;
      fbo_spectrum := t_spectrum;
      fbo_displacement := t_displacement;
      fbo_normals := t_normals;
      fbo_pingPong := [t_ping; t_pong] |}, gl).

(** [const materials = useMemo(() => ..., [])] *)
Record Materials : Type := {
  mat_phillips : PhillipsUniforms;
  mat_initialSpectrum : InitialSpectrumUniforms;
  mat_timeEvolution : TimeEvolutionUniforms
}.

Definition create_materials (c : Config) : Materials :=
  {| mat_phillips := phillipsSpectrumShader_uniforms c;
     mat_initialSpectrum := initialSpectrumShader_uniforms;
     mat_timeEvolution := timeEvolutionShader_uniforms |}.

(** The material on the compute quad: [new THREE.Mesh(geometry)] starts
    with a [MeshBasicMaterial]; the frame callback assigns one of
    [materials]. *)
Inductive ComputeMaterial : Type :=
| MeshBasicMaterial
| materials_phillips
| materials_initialSpectrum
| materials_timeEvolution.

(** Everything the frame callbacks of the component read or write.
    [meshRef] is the ref of the ocean mesh (material [oceanMaterial]) and
    [debug_meshRef] the ref of the [DebugView] mesh (material
    [debugMaterial]): [true] once React has attached the mesh. *)
Record State : Type := {
  gl : WebGLRenderer;
  fbos : Fbos;
  materials : Materials;
  debug_uniforms : DebugUniforms;
  ocean_uniforms : OceanUniforms;
  computeQuad_material : ComputeMaterial;
  meshRef : bool;
  debug_meshRef : bool
}.

(** First render of [Ocean]: the [useMemo] bodies, in source order. *)
Definition Ocean (c : Config) (gl0 : WebGLRenderer) : State :=
  let '(f, gl1) := create_fbos c gl0 in
  {| gl := gl1;
     fbos := f;
     materials := create_materials c;
     debug_uniforms := debugMaterial_uniforms;
     ocean_uniforms := oceanMaterial_uniforms;
     computeQuad_material := MeshBasicMaterial;
     meshRef := false;
     debug_meshRef := false |}.

(** React attaches the two meshes to their refs. *)
Definition mount (s : State) : State :=
  {| gl := gl s; fbos := fbos s; materials := materials s;
     debug_uniforms := debug_uniforms s;
     ocean_uniforms := ocean_uniforms s;
     computeQuad_material := computeQuad_material s;
     meshRef := true;
     debug_meshRef := true |}.

(** What JavaScript does when [Ocean] is called: nothing in the body
    throws. *)
Definition run_Ocean (c : Config) (gl0 : WebGLRenderer) : outcome State :=
  Returned (Ocean c gl0).

Definition with_gl (g : WebGLRenderer) (s : State) : State :=
  {| gl := g; fbos := fbos s; materials := materials s;
     debug_uniforms := debug_uniforms s;
     ocean_uniforms := ocean_uniforms s;
     computeQuad_material := computeQuad_material s;
     meshRef := meshRef s; debug_meshRef := debug_meshRef s |}.

Definition with_computeQuad_material (m : ComputeMaterial) (s : State)
  : State :=
  {| gl := gl s; fbos := fbos s; materials := materials s;
     debug_uniforms := debug_uniforms s;
     ocean_uniforms := ocean_uniforms s;
     computeQuad_material := m;
     meshRef := meshRef s; debug_meshRef := debug_meshRef s |}.

Definition with_ocean_uniforms (u : OceanUniforms) (s : State) : State :=
  {| gl := gl s; fbos := fbos s; materials := materials s;
     debug_uniforms := debug_uniforms s;
     ocean_uniforms := u;
     computeQuad_material := computeQuad_material s;
     meshRef := meshRef s; debug_meshRef := debug_meshRef s |}.

Definition with_debug_uniforms (u : DebugUniforms) (s : State) : State :=
  {| gl := gl s; fbos := fbos s; materials := materials s;
     debug_uniforms := u;
     ocean_uniforms := ocean_uniforms s;
     computeQuad_material := computeQuad_material s;
     meshRef := meshRef s; debug_meshRef := debug_meshRef s |}.

(** The fragment program of the material on the compute quad, with its
    sampler uniforms resolved against the renderer: what the quad is
    shaded with when the program compiles. *)
Definition fragment_program (c : Config) (s : State) (m : ComputeMaterial)
  : vec2 -> glsl vec4 :=
  match m with
  | materials_phillips =>
      phillipsSpectrum_main (cfg_RESOLUTION c) (mat_phillips (materials s))
  | materials_initialSpectrum =>
      initialSpectrum_main
        (sample (gl s) (uPhillips (mat_initialSpectrum (materials s))))
        (sample (gl s) (uNoise (mat_initialSpectrum (materials s))))
  | materials_timeEvolution =>
      timeEvolution_main (cfg_RESOLUTION c) (cfg_GRAVITY c)
        (sample (gl s) (uInitialSpectrum (mat_timeEvolution (materials s))))
        (uTime (mat_timeEvolution (materials s)))
  | MeshBasicMaterial => fun _ => Some (Vec4 1 1 1 1)
  end.

(** The names a fragment program uses that neither its own text nor the
    prefix three.js puts before the text of a [ShaderMaterial] declares:
    the Phillips and the time evolution programs use [PI]. *)
Definition undeclared_names (m : ComputeMaterial) : list string :=
  match m with
  | materials_phillips | materials_timeEvolution => ["PI"%string]
  | materials_initialSpectrum | MeshBasicMaterial => []
  end.

(** A program that uses an undeclared name does not compile. *)
Definition compiles (m : ComputeMaterial) : bool :=
  match undeclared_names m with
  | [] => true
  | _ :: _ => false
  end.

(** [gl.render(computeScene, computeCamera)]: the renderer clears the
    target to its clear colour, transparent black, and draws the quad; with
    a program that does not compile the draw call draws nothing. *)
Definition render_computeScene (c : Config) (s : State) : State :=
  with_gl
    (render (if compiles (computeQuad_material s)
             then fragment_program c s (computeQuad_material s)
             else cleared)
            (gl s)) s.

(** The callback [Ocean] passes to [useFrame]; [time] is
    [clock.getElapsedTime()]. *)
Definition Ocean_useFrame (c : Config) (time : R) (s : State) : State :=
  (* Step 1: Generate Phillips spectrum *)
  let s := with_computeQuad_material materials_phillips s in
  let s := with_gl (setRenderTarget (Some (fbo_phillips (fbos s))) (gl s)) s in
  let s := render_computeScene c s in
  (* Step 2-5 will go here as we implement them *)
  let s := with_gl (setRenderTarget None (gl s)) s in
  (* Update ocean material *)
  if meshRef s then
    with_ocean_uniforms
      {| ocean_uTime := time;
         uDisplacement := Some (fbo_phillips (fbos s));
         uNormalMap := uNormalMap (ocean_uniforms s) |} s
  else s.

(** The callback [DebugView] passes to [useFrame]:
    [meshRef.current.material.uniforms.uTexture.value = texture]. *)
Definition DebugView_useFrame (texture : Texture) (s : State) : State :=
  if debug_meshRef s then with_debug_uniforms {| uTexture := Some texture |} s
  else s.

(** The draw of the debug quad when the scene is rendered after the frame
    callbacks: the debug material's program runs into whatever the current
    render target is. *)
Definition DebugView_draw (s : State) : State :=
  if debug_meshRef s then
    with_gl (render (debugMaterial_main
                       (sample (gl s) (uTexture (debug_uniforms s)))) (gl s)) s
  else s.

(** One frame of the application: the frame callbacks of [DebugView]
    (with [texture={fbos.phillips.texture}]) and of [Ocean], then the scene
    with the debug quad is drawn. *)
Definition frame (c : Config) (time : R) (s : State) : State :=
  DebugView_draw
    (Ocean_useFrame c time (DebugView_useFrame (fbo_phillips (fbos s)) s)).

(** The states the mounted application goes through. *)
Inductive reachable (c : Config) : State -> Prop :=
| reachable_Ocean : reachable c (Ocean c fresh)
| reachable_mount s : reachable c s -> reachable c (mount s)
| reachable_frame s time : reachable c s -> reachable c (frame c time s).

End App.

(** ** [src/Ocean.jsx]: the gradient-noise heightmap *)

Module OceanJsx.

(** *** The simulation material *)

Record SimUniforms : Type := {
  uTime : R;
  uPrevState : option Texture
}.

Definition simMaterial_uniforms : SimUniforms :=
  {| uTime := 0; uPrevState := None |}.

(** [x - floor(x * (1.0 / 289.0)) * 289.0], on [vec2] and on [vec3]. *)
Definition mod289_scalar (x : R) : R := x - floor (x * (1.0 / 289.0)) * 289.0.
Definition mod289_vec2 (x : vec2) : vec2 := map2 mod289_scalar x.
Definition mod289_vec3 (x : vec3) : vec3 := map3 mod289_scalar x.

(** [mod289(((x*34.0)+1.0)*x)], in exact arithmetic.  The noise function
    calls it on integers below 580, where the product stays below 2^24 and
    a 32-bit float holds it exactly; on large arguments the shader's
    floats round and its value is another. *)
Definition permute_vec3 (x : vec3) : vec3 :=
  mod289_vec3 (map3 (fun c => ((c * 34.0) + 1.0) * c) x).

Definition C : vec4 :=
  Vec4 0.211324865405187 0.366025403784439
       (-0.577350269189626) 0.024390243902439.

Definition snoise (v : vec2) : R :=
  (* vec2 i = floor(v + dot(v, C.yy)); *)
  let i := map2 floor (map2 (fun c => c + dot v (Vec2 (y4 C) (y4 C))) v) in
  (* vec2 x0 = v - i + dot(i, C.xx); *)
  let x0 := map2 (fun c => c + dot i (Vec2 (x4 C) (x4 C))) (zip2 Rminus v i) in
  (* i1 = (x0.x > x0.y) ? vec2(1.0, 0.0) : vec2(0.0, 1.0); *)
  let i1 := if Rgt_dec (x2 x0) (y2 x0) then Vec2 1.0 0.0 else Vec2 0.0 1.0 in
  (* vec4 x12 = x0.xyxy + C.xxzz; x12.xy -= i1; *)
  let x12 := Vec4 (x2 x0 + x4 C - x2 i1) (y2 x0 + x4 C - y2 i1)
                  (x2 x0 + z4 C) (y2 x0 + z4 C) in
  (* i = mod289(i); *)
  let i := mod289_vec2 i in
  (* vec3 p = permute(permute(i.y + vec3(0.0, i1.y, 1.0)) + i.x
                      + vec3(0.0, i1.x, 1.0)); *)
  let p := permute_vec3
             (zip3 Rplus
                (map3 (fun c => c + x2 i)
                   (permute_vec3
                      (map3 (fun c => y2 i + c) (Vec3 0.0 (y2 i1) 1.0))))
                (Vec3 0.0 (x2 i1) 1.0)) in
  (* vec3 m = max(0.5 - vec3(dot(x0,x0), dot(x12.xy,x12.xy),
                             dot(x12.zw,x12.zw)), 0.0); *)
  let m := map3 (fun c => max (0.5 - c) 0.0)
             (Vec3 (dot x0 x0) (dot (xy x12) (xy x12)) (dot (zw x12) (zw x12))) in
  (* m = m*m; m = m*m; *)
  let m := zip3 Rmult m m in
  let m := zip3 Rmult m m in
  (* vec3 x = 2.0 * fract(p * C.www) - 1.0; *)
  let x := map3 (fun c => 2.0 * fract (c * w4 C) - 1.0) p in
  (* vec3 h = abs(x) - 0.5; *)
  let h := map3 (fun c => abs c - 0.5) x in
  (* vec3 ox = floor(x + 0.5); vec3 a0 = x - ox; *)
  let ox := map3 (fun c => floor (c + 0.5)) x in
  let a0 := zip3 Rminus x ox in
  (* m *= 1.79284291400159 - 0.85373472095314 * (a0*a0 + h*h); *)
  let m := zip3 Rmult m
             (map3 (fun c => 1.79284291400159 - 0.85373472095314 * c)
                (zip3 Rplus (zip3 Rmult a0 a0) (zip3 Rmult h h))) in
  (* g.x = a0.x * x0.x + h.x * x0.y;
     g.yz = a0.yz * x12.xz + h.yz * x12.yw; *)
  let g := Vec3 (x3 a0 * x2 x0 + x3 h * y2 x0)
                (y3 a0 * x4 x12 + y3 h * y4 x12)
                (z3 a0 * z4 x12 + z3 h * w4 x12) in
  130.0 * dot3 m g.

(** The fragment program: [uPrevState] is declared and never read. *)
Definition simMaterial_main (uTime : R) (uPrevState : sampler2D) (vUv : vec2)
  : glsl vec4 :=
  let scale1 := Vec2 2.6 2.6 in
  let scale2 := Vec2 2.9 2.9 in
  let noise1 := snoise (map2 (fun c => c + uTime * 0.1) (zip2 Rmult vUv scale1)) in
  let noise2 := snoise (map2 (fun c => c - uTime * 0.15) (zip2 Rmult vUv scale2)) in
  let height := (noise1 + noise2) * 0.5 in
  Some (Vec4 height 0.0 0.0 1.0).

(** *** The ocean and debug materials *)

Record OceanUniforms : Type := {
  ocean_uTime : R;
  ocean_uHeightmap : option Texture;
  uDepthColor : string;
  uSurfaceColor : string;
  uColorOffset : R;
  uColorMultiplier : R
}.

Definition oceanMaterial_uniforms : OceanUniforms :=
  {| ocean_uTime := 0;
     ocean_uHeightmap := None;
     uDepthColor := "#1e4d40";
     uSurfaceColor := "#4c8d7d";
     uColorOffset := 0.8;
     uColorMultiplier := 4 |}.

Record DebugUniforms : Type := { uHeightmap : option Texture }.

Definition debugMaterial_uniforms : DebugUniforms := {| uHeightmap := None |}.

(** [gl_FragColor = vec4(vec3(heightData.r), 1.0)] *)
Definition debugMaterial_main (uHeightmap : sampler2D) (vUv : vec2)
  : glsl vec4 :=
  heightData ← texture2D uHeightmap vUv;
  Some (Vec4 (r4 heightData) (r4 heightData) (r4 heightData) 1.0).

(** *** The [Ocean] component *)

Definition format : TargetOptions :=
  {| minFilter := NearestFilter;
     magFilter := NearestFilter;
     Three.format := RGBAFormat;
     type := FloatType |}.

(** [fbos.current] *)
Record Fbos : Type := {
  read : TargetRef;
  write : TargetRef
}.

(** Everything the frame callbacks read or write.  [meshRef] is the ref
    of the ocean mesh (material [oceanMaterial]), [debugRef] the ref of the
    [DebugPlane] mesh (material [debugMaterial]): [true] once React has
    attached the mesh. *)
Record State : Type := {
  gl : WebGLRenderer;
  heightmapFBO1 : TargetRef;
  heightmapFBO2 : TargetRef;
  fbos : Fbos;
  sim_uniforms : SimUniforms;
  ocean_uniforms : OceanUniforms;
  debug_uniforms : DebugUniforms;
  meshRef : bool;
  debugRef : bool
}.

(** First render of [Ocean]: the two render targets and the ref that
    names their roles. *)
Definition Ocean (gl0 : WebGLRenderer) : State :=
  let '(fbo1, gl1) := new_WebGLRenderTarget 256 256 format gl0 in
  let '(fbo2, gl2) := new_WebGLRenderTarget 256 256 format gl1 in
  {| gl := gl2;
     heightmapFBO1 := fbo1;
     heightmapFBO2 := fbo2;
     fbos := {| read := fbo1; write := fbo2 |};
     sim_uniforms := simMaterial_uniforms;
     ocean_uniforms := oceanMaterial_uniforms;
     debug_uniforms := debugMaterial_uniforms;
     meshRef := false;
     debugRef := false |}.

(** React attaches the two meshes to their refs. *)
Definition mount (s : State) : State :=
  {| gl := gl s; heightmapFBO1 := heightmapFBO1 s;
     heightmapFBO2 := heightmapFBO2 s; fbos := fbos s;
     sim_uniforms := sim_uniforms s; ocean_uniforms := ocean_uniforms s;
     debug_uniforms := debug_uniforms s;
     meshRef := true; debugRef := true |}.

Definition with_gl (g : WebGLRenderer) (s : State) : State :=
  {| gl := g; heightmapFBO1 := heightmapFBO1 s;
     heightmapFBO2 := heightmapFBO2 s; fbos := fbos s;
     sim_uniforms := sim_uniforms s; ocean_uniforms := ocean_uniforms s;
     debug_uniforms := debug_uniforms s;
     meshRef := meshRef s; debugRef := debugRef s |}.

Definition with_fbos (f : Fbos) (s : State) : State :=
  {| gl := gl s; heightmapFBO1 := heightmapFBO1 s;
     heightmapFBO2 := heightmapFBO2 s; fbos := f;
     sim_uniforms := sim_uniforms s; ocean_uniforms := ocean_uniforms s;
     debug_uniforms := debug_uniforms s;
     meshRef := meshRef s; debugRef := debugRef s |}.

Definition with_sim_uniforms (u : SimUniforms) (s : State) : State :=
  {| gl := gl s; heightmapFBO1 := heightmapFBO1 s;
     heightmapFBO2 := heightmapFBO2 s; fbos := fbos s;
     sim_uniforms := u; ocean_uniforms := ocean_uniforms s;
     debug_uniforms := debug_uniforms s;
     meshRef := meshRef s; debugRef := debugRef s |}.

Definition with_ocean_uniforms (u : OceanUniforms) (s : State) : State :=
  {| gl := gl s; heightmapFBO1 := heightmapFBO1 s;
     heightmapFBO2 := heightmapFBO2 s; fbos := fbos s;
     sim_uniforms := sim_uniforms s; ocean_uniforms := u;
     debug_uniforms := debug_uniforms s;
     meshRef := meshRef s; debugRef := debugRef s |}.

Definition with_debug_uniforms (u : DebugUniforms) (s : State) : State :=
  {| gl := gl s; heightmapFBO1 := heightmapFBO1 s;
     heightmapFBO2 := heightmapFBO2 s; fbos := fbos s;
     sim_uniforms := sim_uniforms s; ocean_uniforms := ocean_uniforms s;
     debug_uniforms := u;
     meshRef := meshRef s; debugRef := debugRef s |}.

(** [gl.render(scene, camera)]: the scene holds [simMesh], a quad with
    [simMaterial]. *)
Definition render_scene (s : State) : State :=
  with_gl
    (render (simMaterial_main (uTime (sim_uniforms s))
               (sample (gl s) (uPrevState (sim_uniforms s))))
            (gl s)) s.

(** The callback [Ocean] passes to [useFrame]; [time] is
    [clock.getElapsedTime()]. *)
Definition Ocean_useFrame (time : R) (s : State) : State :=
  (* Update simulation *)
  let s := with_sim_uniforms
             {| uTime := time; uPrevState := uPrevState (sim_uniforms s) |} s in
  let s := with_sim_uniforms
             {| uTime := uTime (sim_uniforms s);
                uPrevState := Some (read (fbos s)) |} s in
  let s := with_gl (setRenderTarget (Some (write (fbos s))) (gl s)) s in
  let s := render_scene s in
  let s := with_gl (setRenderTarget None (gl s)) s in
  (* Swap buffers *)
  let temp := read (fbos s) in
  let s := with_fbos {| read := write (fbos s); write := write (fbos s) |} s in
  let s := with_fbos {| read := read (fbos s); write := temp |} s in
  (* Update ocean material *)
  if meshRef s then
    let s := with_ocean_uniforms
               {| ocean_uTime := time;
                  ocean_uHeightmap := ocean_uHeightmap (ocean_uniforms s);
                  uDepthColor := uDepthColor (ocean_uniforms s);
                  uSurfaceColor := uSurfaceColor (ocean_uniforms s);
                  uColorOffset := uColorOffset (ocean_uniforms s);
                  uColorMultiplier := uColorMultiplier (ocean_uniforms s) |} s in
    with_ocean_uniforms
      {| ocean_uTime := ocean_uTime (ocean_uniforms s);
         ocean_uHeightmap := Some (read (fbos s));
         uDepthColor := uDepthColor (ocean_uniforms s);
         uSurfaceColor := uSurfaceColor (ocean_uniforms s);
         uColorOffset := uColorOffset (ocean_uniforms s);
         uColorMultiplier := uColorMultiplier (ocean_uniforms s) |} s
  else s.

(** The callback [DebugPlane] passes to [useFrame]:
    [debugRef.current.material.uniforms.uHeightmap.value = heightmapTexture]. *)
Definition DebugPlane_useFrame (heightmapTexture : Texture) (s : State)
  : State :=
  if debugRef s then
    with_debug_uniforms {| uHeightmap := Some heightmapTexture |} s
  else s.

(** The draw of the debug quad when the scene is rendered after the frame
    callbacks: the debug material's program runs into whatever the current
    render target is. *)
Definition DebugPlane_draw (s : State) : State :=
  if debugRef s then
    with_gl (render (debugMaterial_main
                       (sample (gl s) (uHeightmap (debug_uniforms s)))) (gl s)) s
  else s.

(** One frame: the frame callbacks of [DebugPlane] and of [Ocean], then the
    scene with the debug quad is drawn.  [Ocean] renders once, so the prop
    [heightmapTexture={fbos.current.read.texture}] stays the texture of
    [heightmapFBO1]. *)
Definition frame (time : R) (s : State) : State :=
  DebugPlane_draw (Ocean_useFrame time (DebugPlane_useFrame (heightmapFBO1 s) s)).

(** [n] frames; [clock i] is the elapsed time seen by frame [i]. *)
Fixpoint frames (clock : nat -> R) (n : nat) (s : State) : State :=
  match n with
  | O => s
  | S n' => frame (clock n') (frames clock n' s)
  end.

(** The states the mounted application goes through. *)
Inductive reachable : State -> Prop :=
| reachable_Ocean : reachable (Ocean fresh)
| reachable_mount s : reachable s -> reachable (mount s)
| reachable_frame s time : reachable s -> reachable (frame time s).

End OceanJsx.

(** * The specification's vocabulary *)

Module Spec.

Import App.

(** Modelled from the spec: the configuration check of section 7, which
    the source does not contain.  A configuration is valid when the
    resolution is a power of two and wind speed and gravity are positive;
    an invalid one is to be rejected with a ConfigurationError. *)
Definition power_of_two (n : Z) : Prop := exists m : nat, n = (2 ^ Z.of_nat m)%Z.

Definition valid (c : Config) : Prop :=
  power_of_two (cfg_RESOLUTION c)
  /\ 0 < cfg_WIND_SPEED c
  /\ 0 < cfg_GRAVITY c.

Definition ConfigurationError : exn := Error "ConfigurationError".








(** The centre of texel [(i, j)] of an [N]×[N] texture. *)
Definition texel_uv (N : Z) (i j : Z) : vec2 :=
  Vec2 ((IZR i + 0.5) / IZR N) ((IZR j + 0.5) / IZR N).

End Spec.

Import Spec.

(** * Closed forms

    What the programs compute, written as plain expressions; the
    properties below relate them to the programs. *)

Module Closed.

Import App.

(** The value the shader function computes away from the origin, in closed
    form. *)
Definition phillips_value (u : PhillipsUniforms) (k : vec2) : R :=
  let kLength := length k in
  let L := uWindSpeed u * uWindSpeed u / uGravity u in
  let kDotW := dot (Vec2 (x2 k / kLength) (y2 k / kLength)) (uWindDirection u) in
  uAlpha u
    * exp (- 1.0 / (kLength * kLength * L * L))
    * (kDotW * kDotW)
    * exp (- kLength * kLength * (L / 1000.0 * (L / 1000.0)))
    / (kLength * kLength * kLength * kLength).

(** The heightmap the simulation pass writes at elapsed time [t]. *)
Definition heightmap (t : R) (vUv : vec2) : vec4 :=
  Vec4 ((OceanJsx.snoise (Vec2 (x2 vUv * 2.6 + t * 0.1) (y2 vUv * 2.6 + t * 0.1))
         + OceanJsx.snoise (Vec2 (x2 vUv * 2.9 - t * 0.15) (y2 vUv * 2.9 - t * 0.15)))
        * 0.5) 0 0 1.

(** What holds of every state the application goes through: no render
    target is left bound, and the two targets created at the start share
    the read and write roles. *)
Definition wf (s : OceanJsx.State) : Prop :=
  currentTarget (OceanJsx.gl s) = None
  /\ List.length (targets (OceanJsx.gl s)) = 2%nat
  /\ OceanJsx.heightmapFBO1 s = 0%nat
  /\ OceanJsx.heightmapFBO2 s = 1%nat
  /\ (OceanJsx.fbos s = {| OceanJsx.read := 0%nat; OceanJsx.write := 1%nat |}
      \/ OceanJsx.fbos s = {| OceanJsx.read := 1%nat; OceanJsx.write := 0%nat |}).

(** What holds of every state the application of [App.jsx] goes through:
    no render target is left bound, the seven targets exist under the
    names given at the first render, and the materials keep the uniforms
    they were created with. *)
Definition App_wf (c : Config) (s : App.State) : Prop :=
  currentTarget (App.gl s) = None
  /\ List.length (targets (App.gl s)) = 7%nat
  /\ App.fbos s
     = {| fbo_phillips := 0%nat; fbo_initialSpectrum := 1%nat;
          fbo_spectrum := 2%nat; fbo_displacement := 3%nat;
          fbo_normals := 4%nat; fbo_pingPong := [5%nat; 6%nat] |}
  /\ App.materials s = create_materials c.

End Closed.

Import Closed.

(** * The ocean materials, the cleanup and further vocabulary

    The programs of the two ocean materials and the cleanup of the
    spectral pipeline, with the helpers the further properties are stated
    with. *)

Module More.

Import App.

(** The opposite vector. *)
Definition neg2 (v : vec2) : vec2 := Vec2 (- x2 v) (- y2 v).

(** The Phillips uniforms with another wind speed, or another wind
    direction. *)
Definition with_uWindSpeed (W : R) (u : PhillipsUniforms) : PhillipsUniforms :=
  {| uWindSpeed := W; uWindDirection := uWindDirection u;
     uGravity := uGravity u; uAlpha := uAlpha u |}.

Definition with_uWindDirection (d : vec2) (u : PhillipsUniforms)
  : PhillipsUniforms :=
  {| uWindSpeed := uWindSpeed u; uWindDirection := d;
     uGravity := uGravity u; uAlpha := uAlpha u |}.

(** *** GLSL built-ins used by the ocean materials *)

Definition length3 (v : vec3) : R := sqrt (dot3 v v).

(** [normalize(v)] on [vec3] divides by [length(v)]. *)
Definition normalize3 (v : vec3) : glsl vec3 :=
  nx ← fdiv (x3 v) (length3 v);
  ny ← fdiv (y3 v) (length3 v);
  nz ← fdiv (z3 v) (length3 v);
  Some (Vec3 nx ny nz).

(** [mix(x, y, a)] is [x * (1 - a) + y * a], component-wise on vectors. *)
Definition mix (x y a : R) : R := x * (1 - a) + y * a.

Definition mix3 (x y : vec3) (a : R) : vec3 :=
  Vec3 (mix (x3 x) (x3 y) a) (mix (y3 x) (y3 y) a) (mix (z3 x) (z3 y) a).

(** A [mat4], by columns, and its products with a vector and a matrix. *)
Record mat4 : Type := Mat4 { col0 : vec4; col1 : vec4; col2 : vec4; col3 : vec4 }.

Definition mat4_vec (m : mat4) (v : vec4) : vec4 :=
  Vec4 (x4 (col0 m) * x4 v + x4 (col1 m) * y4 v + x4 (col2 m) * z4 v + x4 (col3 m) * w4 v)
       (y4 (col0 m) * x4 v + y4 (col1 m) * y4 v + y4 (col2 m) * z4 v + y4 (col3 m) * w4 v)
       (z4 (col0 m) * x4 v + z4 (col1 m) * y4 v + z4 (col2 m) * z4 v + z4 (col3 m) * w4 v)
       (w4 (col0 m) * x4 v + w4 (col1 m) * y4 v + w4 (col2 m) * z4 v + w4 (col3 m) * w4 v).

Definition mat4_mul (a b : mat4) : mat4 :=
  Mat4 (mat4_vec a (col0 b)) (mat4_vec a (col1 b))
       (mat4_vec a (col2 b)) (mat4_vec a (col3 b)).

(** *** The ocean material of the spectral pipeline *)

(** What a vertex program hands on: [gl_Position] and the varying [vUv].
    ([vNormal] is declared and never assigned.) *)
Record SpectralVertex : Type := {
  sv_Position : vec4;
  sv_vUv : vec2
}.

(** The vertex program of [oceanMaterial]: first its local [newPosition],
    then the whole program. *)
Definition oceanMaterial_newPosition (uDisplacement : sampler2D)
    (position normal : vec3) (uv : vec2) : glsl vec3 :=
  displacement ← texture2D uDisplacement uv;
  Some (Vec3 (x3 position + x3 normal * x4 displacement)
             (y3 position + y3 normal * x4 displacement)
             (z3 position + z3 normal * x4 displacement)).

Definition oceanMaterial_vertex (projectionMatrix modelViewMatrix : mat4)
    (uDisplacement : sampler2D) (position normal : vec3) (uv : vec2)
  : glsl SpectralVertex :=
  newPosition ← oceanMaterial_newPosition uDisplacement position normal uv;
  Some {| sv_Position :=
            mat4_vec (mat4_mul projectionMatrix modelViewMatrix)
              (Vec4 (x3 newPosition) (y3 newPosition) (z3 newPosition) 1.0);
          sv_vUv := uv |}.

(** The fragment program of [oceanMaterial]. *)
Definition oceanMaterial_fragment (uNormalMap : sampler2D) (vUv : vec2)
  : glsl vec4 :=
  n ← texture2D uNormalMap vUv;
  let normal := xyz n in
  light ← normalize3 (Vec3 1.0 1.0 1.0);
  let diffuse := max 0.0 (dot3 normal light) in
  let color := mix3 (Vec3 0.1 0.1 0.3) (Vec3 0.3 0.3 0.5) diffuse in
  Some (Vec4 (x3 color) (y3 color) (z3 color) 1.0).

(** *** Unmounting the spectral pipeline *)

(** A value of the [fbos] object: one render target, or an array of them. *)
Inductive FboValue : Type :=
| One (t : TargetRef)
| Many (ts : list TargetRef).

(** [Object.values(fbos)], in the order of the keys. *)
Definition Object_values (f : Fbos) : list FboValue :=
  [One (fbo_phillips f); One (fbo_initialSpectrum f); One (fbo_spectrum f);
   One (fbo_displacement f); One (fbo_normals f); Many (fbo_pingPong f)].

(** The cleanup returned by the effect, by the render targets it calls
    [dispose()] on, in order: an array value is walked, any other value
    is disposed itself. *)
Definition dispose_fbos (f : Fbos) : list TargetRef :=
  flat_map (fun v => match v with
                     | Many ts => ts
                     | One t => [t]
                     end) (Object_values f).

(** A render target of the spectral pipeline as it is created. *)
Definition blank_target (c : Config) : WebGLRenderTarget :=
  {| width := cfg_RESOLUTION c; height := cfg_RESOLUTION c;
     options := App.format; texture := cleared |}.

(** What holds of the render targets and uniforms of the spectral pipeline
    in every state it goes through. *)
Definition spectral_inv (c : Config) (s : App.State) : Prop :=
  App_wf c s
  /\ targets (App.gl s) = repeat (blank_target c) 7
  /\ Forall (fun call => call = Some 0%nat \/ call = None) (calls (App.gl s))
  /\ uNormalMap (App.ocean_uniforms s) = None
  /\ (uDisplacement (App.ocean_uniforms s) = None
      \/ uDisplacement (App.ocean_uniforms s) = Some 0%nat).

(** *** The noise function, from its corner weights on *)

(** [permute] in integer arithmetic: [((x * 34) + 1) * x] modulo 289. *)
Definition permute_Z (x : Z) : Z := (((x * 34) + 1) * x) mod 289.

(** The last part of [snoise]: from the offsets [x0], [x12] to the three
    corners of the simplex and the hashed values [p], the weights [m],
    the gradients and their weighted sum. *)
Definition snoise_tail (x0 : vec2) (x12 : vec4) (p : vec3) : R :=
  let m := map3 (fun c => max (0.5 - c) 0.0)
             (Vec3 (dot x0 x0) (dot (xy x12) (xy x12)) (dot (zw x12) (zw x12))) in
  let m := zip3 Rmult m m in
  let m := zip3 Rmult m m in
  let x := map3 (fun c => 2.0 * fract (c * w4 OceanJsx.C) - 1.0) p in
  let h := map3 (fun c => abs c - 0.5) x in
  let ox := map3 (fun c => floor (c + 0.5)) x in
  let a0 := zip3 Rminus x ox in
  let m := zip3 Rmult m
             (map3 (fun c => 1.79284291400159 - 0.85373472095314 * c)
                (zip3 Rplus (zip3 Rmult a0 a0) (zip3 Rmult h h))) in
  let g := Vec3 (x3 a0 * x2 x0 + x3 h * y2 x0)
                (y3 a0 * x4 x12 + y3 h * y4 x12)
                (z3 a0 * z4 x12 + z3 h * w4 x12) in
  130.0 * dot3 m g.

(** *** The ocean material of [Ocean.jsx] *)

(** What the vertex program hands on: [gl_Position] and the varying
    [vElevation]. *)
Record HeightVertex : Type := {
  hv_Position : vec4;
  hv_vElevation : R
}.

(** The vertex program of [oceanMaterial] in [Ocean.jsx]. *)
Definition heightmap_vertex (projectionMatrix viewMatrix modelMatrix : mat4)
    (uHeightmap : sampler2D) (position : vec3) (uv : vec2) : glsl HeightVertex :=
  let modelPosition :=
    mat4_vec modelMatrix (Vec4 (x3 position) (y3 position) (z3 position) 1.0) in
  let texCoord := uv in
  heightData ← texture2D uHeightmap texCoord;
  (* Use the red channel for height *)
  let elevation := r4 heightData in
  (* modelPosition.y = elevation * 4.0; *)
  let modelPosition :=
    Vec4 (x4 modelPosition) (elevation * 4.0) (z4 modelPosition) (w4 modelPosition) in
  let viewPosition := mat4_vec viewMatrix modelPosition in
  let projectedPosition := mat4_vec projectionMatrix viewPosition in
  Some {| hv_Position := projectedPosition; hv_vElevation := elevation |}.

(** The fragment program of [oceanMaterial] in [Ocean.jsx]; the colour
    uniforms are given as the [vec3] the program receives. *)
Definition heightmap_fragment (uDepthColor uSurfaceColor : vec3)
    (uColorOffset uColorMultiplier : R) (vElevation : R) : vec4 :=
  let mixStrength := (vElevation + uColorOffset) * uColorMultiplier in
  let color := mix3 uDepthColor uSurfaceColor mixStrength in
  Vec4 (x3 color) (y3 color) (z3 color) 1.0.

End More.

Import More.

Import App.

(** * Properties *)

(** ** GLSL built-ins *)

Section Builtins.

Lemma fdiv_Some (a b : R) : b <> 0 -> fdiv a b = Some (a / b).
Proof.
  intros Hb. unfold fdiv. destruct (Req_dec_T b 0) as [E | _]; [contradiction | reflexivity].
Qed.

Lemma fdiv_zero (a : R) : fdiv a 0 = None.
Proof.
  unfold fdiv. destruct (Req_dec_T 0 0) as [_ | N]; [reflexivity | now destruct N].
Qed.

Lemma fsqrt_Some (x : R) : 0 <= x -> fsqrt x = Some (sqrt x).
Proof.
  intros Hx. unfold fsqrt. destruct (Rle_dec 0 x) as [_ | N]; [reflexivity | contradiction].
Qed.

Lemma pow_zero_base (y : R) : 0 < y -> pow 0 y = Some 0.
Proof.
  intros Hy. unfold pow.
  destruct (Rlt_dec 0 0) as [H | _]; [lra |].
  destruct (Req_dec_T 0 0) as [_ | N]; [| now destruct N].
  destruct (Rle_dec y 0) as [H | _]; [lra | reflexivity].
Qed.

Lemma pow_pos_base (x y : R) : 0 < x -> pow x y = Some (Rpower x y).
Proof.
  intros Hx. unfold pow.
  destruct (Rlt_dec x 0) as [H | _]; [lra |].
  destruct (Req_dec_T x 0) as [H | _]; [lra | reflexivity].
Qed.

(** [pow(x, 1.0)] is [x] on the domain where GLSL defines it. *)
Lemma pow_one (x : R) : 0 <= x -> pow x 1.0 = Some x.
Proof.
  intros [Hx | <-].
  - rewrite pow_pos_base by assumption. f_equal.
    replace 1.0 with 1 by lra. now apply Rpower_1.
  - apply pow_zero_base. lra.
Qed.

(** [pow(x, 2.0)] is [x * x] for a positive base. *)
Lemma pow_two (x : R) : 0 < x -> pow x 2.0 = Some (x * x).
Proof.
  intros Hx. rewrite pow_pos_base by assumption. f_equal.
  replace 2.0 with (INR 2) by (simpl; lra).
  rewrite Rpower_pow by assumption. simpl. ring.
Qed.

Lemma dot_self_nonneg (v : vec2) : 0 <= dot v v.
Proof. unfold dot. nra. Qed.

Lemma length_nonneg (v : vec2) : 0 <= length v.
Proof. apply sqrt_pos. Qed.

Lemma length_zero : length (Vec2 0 0) = 0.
Proof.
  unfold length, dot. simpl. replace (0 * 0 + 0 * 0) with 0 by ring. apply sqrt_0.
Qed.

(** Without a guard, normalising the zero vector divides by zero. *)
Lemma normalize_zero : normalize (Vec2 0 0) = None.
Proof. unfold normalize. rewrite length_zero. simpl. now rewrite fdiv_zero. Qed.

Lemma normalize_Some (v : vec2) :
  length v <> 0 ->
  normalize v = Some (Vec2 (x2 v / length v) (y2 v / length v)).
Proof. intros H. unfold normalize. rewrite !fdiv_Some by assumption. reflexivity. Qed.

End Builtins.

(** ** The Phillips spectrum *)

Section Phillips.

Variable u : PhillipsUniforms.
Hypothesis wind_pos : 0 < uWindSpeed u.
Hypothesis gravity_pos : 0 < uGravity u.

Lemma largest_wave_pos : 0 < uWindSpeed u * uWindSpeed u / uGravity u.
Proof. apply Rdiv_lt_0_compat; [nra | assumption]. Qed.

(** Away from the origin every operation of [phillips] is defined. *)
Lemma phillips_away (k : vec2) :
  ~ length k < 0.0001 -> phillips u k = Some (phillips_value u k).
Proof.
  intros Hk.
  assert (Hlen : 0 < length k) by lra.
  pose proof largest_wave_pos as HL.
  unfold phillips.
  destruct (Rlt_dec (length k) 0.0001) as [H | _]; [contradiction |].
  rewrite fdiv_Some by lra. cbn [mbind option_bind].
  unfold phillips_value. cbv zeta.
  set (L := uWindSpeed u * uWindSpeed u / uGravity u) in *. clearbody L.
  rewrite normalize_Some by lra. cbn [mbind option_bind].
  rewrite pow_two by lra. cbn [mbind option_bind].
  rewrite fdiv_Some by (apply Rgt_not_eq; repeat apply Rmult_lt_0_compat; lra).
  cbn [mbind option_bind].
  rewrite pow_one by nra. cbn [mbind option_bind].
  rewrite fdiv_Some by (apply Rgt_not_eq; repeat apply Rmult_lt_0_compat; lra).
  reflexivity.
Qed.

Lemma phillips_value_nonneg (k : vec2) :
  0 <= uAlpha u -> 0 < length k -> 0 <= phillips_value u k.
Proof.
  intros Ha Hlen. pose proof largest_wave_pos as HL.
  unfold phillips_value. cbv zeta.
  set (L := uWindSpeed u * uWindSpeed u / uGravity u) in *. clearbody L.
  apply Rmult_le_pos; [apply Rmult_le_pos; [apply Rmult_le_pos;
    [apply Rmult_le_pos |] |] |].
  - assumption.
  - left. apply exp_pos.
  - nra.
  - left. apply exp_pos.
  - left. apply Rinv_0_lt_compat. repeat apply Rmult_lt_0_compat; lra.
Qed.

(** The spectrum is positive wherever the wave vector is not orthogonal to
    the wind. *)
End Phillips.

(** C3. For every wave vector whose length is below 0.0001 the Phillips
    function returns exactly 0, whatever the uniforms are: the early return
    comes before every division, so the result is defined (no NaN/Inf), in
    particular at the DC texel [k = 0], where the shader writes
    [(0, 0, 0, 1)] although the normalisation that follows the guard
    would divide by zero there. *)
Theorem phillips_below_epsilon (u : PhillipsUniforms) (k : vec2) :
  length k < 0.0001 ->
  phillips u k = Some 0
  /\ phillips u (Vec2 0 0) = Some 0
  /\ (forall N : Z, phillipsSpectrum_main N u (Vec2 0.5 0.5) = Some (Vec4 0 0 0 1))
  /\ normalize (Vec2 0 0) = None.
Proof.
  assert (guard : forall k', length k' < 0.0001 -> phillips u k' = Some 0).
  { intros k' Hk. unfold phillips.
    destruct (Rlt_dec (length k') 0.0001) as [_ | N]; [| contradiction].
    f_equal. lra. }
  assert (dc : length (Vec2 0 0) < 0.0001) by (rewrite length_zero; lra).
  intros Hk. split; [| split; [| split]].
  - now apply guard.
  - now apply guard.
  - intros N. unfold phillipsSpectrum_main, wave_vector. cbn [x2 y2].
    replace (2.0 * PI * (0.5 - 0.5) * IZR N) with 0 by lra.
    rewrite (guard _ dc). cbn [mbind option_bind]. f_equal. f_equal; lra.
  - apply normalize_zero.
Qed.

Lemma phillips_below_epsilon_witness :
  length (Vec2 0 0) < 0.0001
  /\ phillips (phillipsSpectrumShader_uniforms config) (Vec2 0 0) = Some 0.
Proof.
  split.
  - rewrite length_zero. lra.
  - apply (phillips_below_epsilon (phillipsSpectrumShader_uniforms config) (Vec2 0 0)).
    rewrite length_zero. lra.
Defined.

(** C4. For every wave vector, every non-negative alpha, positive wind
    speed, unit wind direction and positive gravity, the Phillips function
    returns a defined value and that value is greater than or equal to 0. *)
Theorem phillips_nonneg (u : PhillipsUniforms) (k : vec2) :
  0 <= uAlpha u ->
  0 < uWindSpeed u ->
  length (uWindDirection u) = 1 ->
  0 < uGravity u ->
  exists P : R, phillips u k = Some P /\ 0 <= P.
Proof.
  intros Ha Hw _ Hg.
  destruct (Rlt_dec (length k) 0.0001) as [Hk | Hk].
  - exists 0. split; [| lra]. unfold phillips.
    destruct (Rlt_dec (length k) 0.0001); [f_equal; lra | contradiction].
  - exists (phillips_value u k). split.
    + now apply phillips_away.
    + apply phillips_value_nonneg; try assumption. lra.
Qed.

Lemma phillips_nonneg_witness :
  exists P : R,
    phillips {| uWindSpeed := 10; uWindDirection := Vec2 1 0;
                uGravity := 9.81; uAlpha := 0.0081 |} (Vec2 1 0) = Some P
    /\ 0 <= P.
Proof.
  apply (phillips_nonneg
           {| uWindSpeed := 10; uWindDirection := Vec2 1 0;
              uGravity := 9.81; uAlpha := 0.0081 |} (Vec2 1 0)); cbn.
  - lra.
  - lra.
  - unfold length, dot; cbn.
    replace (1 * 1 + 0 * 0) with 1 by ring. apply sqrt_1.
  - lra.
Defined.

(** ** The initial spectrum *)

Lemma initialSpectrum_eval (uPhillips uNoise : sampler2D) (vUv : vec2)
    (ph noise : vec4) :
  texture2D uPhillips vUv = Some ph ->
  texture2D uNoise vUv = Some noise ->
  0 <= x4 ph ->
  initialSpectrum_main uPhillips uNoise vUv
  = Some (Vec4 (sqrt (x4 ph / 2) * x4 noise) (sqrt (x4 ph / 2) * y4 noise) 0 1).
Proof.
  intros Hp Hn Hpos. unfold initialSpectrum_main.
  rewrite Hn, Hp. cbn [mbind option_bind]. unfold r4. cbv zeta.
  rewrite fsqrt_Some by lra. cbn [mbind option_bind xy x2 y2].
  replace 2.0 with 2 by lra. do 2 f_equal; lra.
Qed.

(** Fed with the texture the Phillips program computes, under the wind
    parameters of C4, the initial spectrum is defined at every texel. *)
Lemma initialSpectrum_on_phillips (N : Z) (u : PhillipsUniforms)
    (uNoise : sampler2D) (vUv : vec2) (noise : vec4) :
  0 <= uAlpha u -> 0 < uWindSpeed u -> 0 < uGravity u ->
  texture2D uNoise vUv = Some noise ->
  exists P : R,
    phillips u (wave_vector N vUv) = Some P
    /\ initialSpectrum_main (phillipsSpectrum_main N u) uNoise vUv
       = Some (Vec4 (sqrt (P / 2) * x4 noise) (sqrt (P / 2) * y4 noise) 0 1).
Proof.
  intros Ha Hw Hg Hn.
  assert (HP : exists P, phillips u (wave_vector N vUv) = Some P /\ 0 <= P).
  { destruct (Rlt_dec (length (wave_vector N vUv)) 0.0001) as [Hk | Hk].
    - exists 0. split; [| lra]. unfold phillips.
      destruct (Rlt_dec (length (wave_vector N vUv)) 0.0001); [f_equal; lra | contradiction].
    - exists (phillips_value u (wave_vector N vUv)). split.
      + now apply phillips_away.
      + apply phillips_value_nonneg; try assumption. lra. }
  destruct HP as (P & HP & Hpos). exists P. split; [assumption |].
  apply (initialSpectrum_eval _ _ _ (Vec4 P 0.0 0.0 1.0) noise); try assumption.
  unfold texture2D, phillipsSpectrum_main. rewrite HP. reflexivity.
Qed.

(** C5. At every texel the initial-spectrum program returns
    [sqrt(P/2) * (n_x, n_y)] in its first two channels, [P] being the red
    channel of the spectrum texture there (a spectrum value, so [0 <= P])
    and [(n_x, n_y)] the first two channels of the noise texture; the
    result is a function of these two texels only, so two runs on
    textures that agree at the texel give the same result. *)
Theorem initialSpectrum_formula (uPhillips uNoise : sampler2D) (vUv : vec2)
    (ph noise : vec4) :
  texture2D uPhillips vUv = Some ph ->
  texture2D uNoise vUv = Some noise ->
  0 <= x4 ph ->
  initialSpectrum_main uPhillips uNoise vUv
  = Some (Vec4 (sqrt (x4 ph / 2) * x4 noise) (sqrt (x4 ph / 2) * y4 noise) 0 1)
  /\ (forall uPhillips' uNoise' : sampler2D,
        texture2D uPhillips' vUv = texture2D uPhillips vUv ->
        texture2D uNoise' vUv = texture2D uNoise vUv ->
        initialSpectrum_main uPhillips' uNoise' vUv
        = initialSpectrum_main uPhillips uNoise vUv).
Proof.
  intros Hp Hn Hpos. split.
  - now apply initialSpectrum_eval.
  - intros p' n' Ep En. unfold initialSpectrum_main. now rewrite Ep, En.
Qed.

Lemma initialSpectrum_formula_witness :
  initialSpectrum_main (fun _ => Some (Vec4 2 0 0 1)) (fun _ => Some (Vec4 3 4 0 1))
    (Vec2 0 0)
  = Some (Vec4 (sqrt (2 / 2) * 3) (sqrt (2 / 2) * 4) 0 1).
Proof.
  apply (initialSpectrum_formula (fun _ => Some (Vec4 2 0 0 1))
           (fun _ => Some (Vec4 3 4 0 1)) (Vec2 0 0) (Vec4 2 0 0 1) (Vec4 3 4 0 1)).
  - reflexivity.
  - reflexivity.
  - cbn. lra.
Defined.

(** ** Time evolution *)

Lemma timeEvolution_eval (N : Z) (g : R) (uInitialSpectrum : sampler2D)
    (t : R) (vUv : vec2) (h0 : vec4) :
  0 <= g ->
  texture2D uInitialSpectrum vUv = Some h0 ->
  timeEvolution_main N g uInitialSpectrum t vUv
  = Some (Vec4 (x4 h0 * cos (sqrt (g * length (wave_vector N vUv)) * t))
               (y4 h0 * cos (sqrt (g * length (wave_vector N vUv)) * t)) 0 1).
Proof.
  intros Hg H0. unfold timeEvolution_main. rewrite H0. cbn [mbind option_bind].
  rewrite fsqrt_Some by (apply Rmult_le_pos; [assumption | apply length_nonneg]).
  cbn [mbind option_bind xy x2 y2]. do 2 f_equal; lra.
Qed.

Lemma GRAVITY_pos : 0 < GRAVITY.
Proof. unfold GRAVITY. lra. Qed.

(** C2. For every texel and every elapsed time [t] the time-evolution
    program returns [h0(k) * cos(w * t)] with [w = sqrt(g * |k|)], [k] the
    texel's wave vector and [g = 9.81]; at [t = 0] it returns [h0(k)]
    itself. *)
Theorem timeEvolution_cosine (uInitialSpectrum : sampler2D) (t : R)
    (vUv : vec2) (h0 : vec4) :
  texture2D uInitialSpectrum vUv = Some h0 ->
  let k := wave_vector RESOLUTION vUv in
  let w := sqrt (GRAVITY * length k) in
  timeEvolution_main RESOLUTION GRAVITY uInitialSpectrum t vUv
  = Some (Vec4 (x4 h0 * cos (w * t)) (y4 h0 * cos (w * t)) 0 1)
  /\ timeEvolution_main RESOLUTION GRAVITY uInitialSpectrum 0 vUv
     = Some (Vec4 (x4 h0) (y4 h0) 0 1).
Proof.
  intros H0 k w. pose proof GRAVITY_pos as Hg. split.
  - apply timeEvolution_eval; [lra | assumption].
  - rewrite (timeEvolution_eval _ _ _ _ _ h0) by (lra || assumption).
    rewrite Rmult_0_r, cos_0, !Rmult_1_r. reflexivity.
Qed.

Lemma timeEvolution_cosine_witness :
  timeEvolution_main RESOLUTION GRAVITY (fun _ => Some (Vec4 3 4 0 1)) 0 (Vec2 1 1)
  = Some (Vec4 3 4 0 1).
Proof.
  apply (timeEvolution_cosine (fun _ => Some (Vec4 3 4 0 1)) 0 (Vec2 1 1)
           (Vec4 3 4 0 1)).
  reflexivity.
Defined.

(** C10. For every texel and every time, the program's output is defined
    and each of its two components is bounded in absolute value by the
    same component of the initial spectrum at that texel. *)
Theorem timeEvolution_bounded (uInitialSpectrum : sampler2D) (t : R)
    (vUv : vec2) (h0 : vec4) :
  texture2D uInitialSpectrum vUv = Some h0 ->
  exists ht : vec4,
    timeEvolution_main RESOLUTION GRAVITY uInitialSpectrum t vUv = Some ht
    /\ Rabs (x4 ht) <= Rabs (x4 h0)
    /\ Rabs (y4 ht) <= Rabs (y4 h0).
Proof.
  intros H0. pose proof GRAVITY_pos as Hg.
  eexists. split.
  - apply timeEvolution_eval; [lra | eassumption].
  - cbn [x4 y4].
    set (c := cos _).
    assert (Hc : Rabs c <= 1).
    { apply Rabs_le. subst c. apply COS_bound. }
    rewrite !Rabs_mult.
    pose proof (Rabs_pos (x4 h0)). pose proof (Rabs_pos (y4 h0)).
    split; nra.
Qed.

Lemma timeEvolution_bounded_witness :
  exists ht : vec4,
    timeEvolution_main RESOLUTION GRAVITY (fun _ => Some (Vec4 3 4 0 1)) 2 (Vec2 1 1)
    = Some ht
    /\ Rabs (x4 ht) <= Rabs 3
    /\ Rabs (y4 ht) <= Rabs 4.
Proof.
  apply (timeEvolution_bounded (fun _ => Some (Vec4 3 4 0 1)) 2 (Vec2 1 1)
           (Vec4 3 4 0 1)).
  reflexivity.
Defined.

(** ** The renderer *)

Section Renderer.

Lemma render_to_canvas (frag : vec2 -> glsl vec4) (g : WebGLRenderer) :
  currentTarget g = None ->
  targets (render frag g) = targets g
  /\ currentTarget (render frag g) = None
  /\ canvas (render frag g) = frag.
Proof. intros H. unfold render. rewrite H. cbn. auto. Qed.

Lemma render_to_target (frag : vec2 -> glsl vec4) (g : WebGLRenderer) (i : TargetRef) :
  currentTarget g = Some i ->
  targets (render frag g) = alter (with_texture frag) i (targets g)
  /\ currentTarget (render frag g) = Some i
  /\ canvas (render frag g) = canvas g.
Proof. intros H. unfold render. rewrite H. cbn. auto. Qed.


Lemma sample_alter_other (frag : sampler2D)
    (i j : TargetRef) (ts : list WebGLRenderTarget) (cur cur' : option TargetRef)
    (cv cv' : sampler2D) (cs cs' : list (option TargetRef)) :
  i <> j ->
  sample {| targets := alter (with_texture frag) i ts;
            currentTarget := cur; canvas := cv; calls := cs |} (Some j)
  = sample {| targets := ts; currentTarget := cur'; canvas := cv';
              calls := cs' |} (Some j).
Proof.
  intros Hij. unfold sample. cbn [targets].
  rewrite list_lookup_alter_ne by assumption. reflexivity.
Qed.

End Renderer.

(** ** [Ocean.jsx]: the ping-pong frame *)

Section PingPong.

Import OceanJsx.

Lemma simMaterial_main_heightmap (t : R) (prev : sampler2D) (vUv : vec2) :
  simMaterial_main t prev vUv = Some (heightmap t vUv).
Proof.
  unfold simMaterial_main, heightmap. cbn [map2 zip2 x2 y2].
  do 2 f_equal; lra.
Qed.

Lemma useFrame_fbos (t : R) (s : State) :
  fbos (Ocean_useFrame t s)
  = {| read := write (fbos s); write := read (fbos s) |}.
Proof. unfold Ocean_useFrame. cbn. destruct (meshRef s); reflexivity. Qed.

Lemma useFrame_sim_uniforms (t : R) (s : State) :
  sim_uniforms (Ocean_useFrame t s)
  = {| uTime := t; uPrevState := Some (read (fbos s)) |}.
Proof. unfold Ocean_useFrame. cbn. destruct (meshRef s); reflexivity. Qed.

Lemma useFrame_gl (t : R) (s : State) :
  gl (Ocean_useFrame t s)
  = {| targets :=
         alter (with_texture
                  (simMaterial_main t (sample (gl s) (Some (read (fbos s))))))
               (write (fbos s)) (targets (gl s));
       currentTarget := None;
       canvas := canvas (gl s);
       calls := calls (gl s) ++ [Some (write (fbos s))] |}.
Proof. unfold Ocean_useFrame. cbn. destruct (meshRef s); reflexivity. Qed.

Lemma useFrame_debug (t : R) (s : State) :
  debug_uniforms (Ocean_useFrame t s) = debug_uniforms s
  /\ debugRef (Ocean_useFrame t s) = debugRef s
  /\ meshRef (Ocean_useFrame t s) = meshRef s
  /\ heightmapFBO1 (Ocean_useFrame t s) = heightmapFBO1 s
  /\ heightmapFBO2 (Ocean_useFrame t s) = heightmapFBO2 s.
Proof.
  unfold Ocean_useFrame. cbn.
  destruct (meshRef s) eqn:E; cbn; rewrite ?E; repeat split; reflexivity.
Qed.

Lemma DebugPlane_useFrame_pipeline (tex : Texture) (s : State) :
  gl (DebugPlane_useFrame tex s) = gl s
  /\ fbos (DebugPlane_useFrame tex s) = fbos s
  /\ sim_uniforms (DebugPlane_useFrame tex s) = sim_uniforms s
  /\ ocean_uniforms (DebugPlane_useFrame tex s) = ocean_uniforms s
  /\ meshRef (DebugPlane_useFrame tex s) = meshRef s
  /\ debugRef (DebugPlane_useFrame tex s) = debugRef s
  /\ heightmapFBO1 (DebugPlane_useFrame tex s) = heightmapFBO1 s
  /\ heightmapFBO2 (DebugPlane_useFrame tex s) = heightmapFBO2 s.
Proof.
  unfold DebugPlane_useFrame.
  destruct (debugRef s) eqn:E; cbn; rewrite ?E; repeat split; reflexivity.
Qed.

Lemma DebugPlane_draw_pipeline (s : State) :
  currentTarget (gl s) = None ->
  targets (gl (DebugPlane_draw s)) = targets (gl s)
  /\ currentTarget (gl (DebugPlane_draw s)) = None
  /\ fbos (DebugPlane_draw s) = fbos s
  /\ sim_uniforms (DebugPlane_draw s) = sim_uniforms s
  /\ ocean_uniforms (DebugPlane_draw s) = ocean_uniforms s
  /\ meshRef (DebugPlane_draw s) = meshRef s
  /\ debugRef (DebugPlane_draw s) = debugRef s
  /\ heightmapFBO1 (DebugPlane_draw s) = heightmapFBO1 s
  /\ heightmapFBO2 (DebugPlane_draw s) = heightmapFBO2 s.
Proof.
  intros Hcur. unfold DebugPlane_draw.
  destruct (debugRef s) eqn:E; cbn; rewrite ?E; [| repeat split; auto].
  unfold render. rewrite Hcur. cbn. repeat split; reflexivity.
Qed.

Lemma useFrame_currentTarget (t : R) (s : State) :
  currentTarget (gl (Ocean_useFrame t s)) = None.
Proof. now rewrite useFrame_gl. Qed.

Lemma frame_fbos (t : R) (s : State) :
  fbos (frame t s) = {| read := write (fbos s); write := read (fbos s) |}.
Proof.
  unfold frame.
  destruct (DebugPlane_draw_pipeline _ (useFrame_currentTarget t
              (DebugPlane_useFrame (heightmapFBO1 s) s))) as (_ & _ & -> & _).
  rewrite useFrame_fbos.
  destruct (DebugPlane_useFrame_pipeline (heightmapFBO1 s) s) as (_ & -> & _).
  reflexivity.
Qed.

Lemma frame_targets (t : R) (s : State) :
  targets (gl (frame t s))
  = alter (with_texture
             (simMaterial_main t (sample (gl s) (Some (read (fbos s))))))
          (write (fbos s)) (targets (gl s)).
Proof.
  unfold frame.
  destruct (DebugPlane_draw_pipeline _ (useFrame_currentTarget t
              (DebugPlane_useFrame (heightmapFBO1 s) s))) as (-> & _).
  rewrite useFrame_gl. cbn [targets].
  destruct (DebugPlane_useFrame_pipeline (heightmapFBO1 s) s) as (-> & -> & _).
  reflexivity.
Qed.

Lemma frame_currentTarget (t : R) (s : State) :
  currentTarget (gl (frame t s)) = None.
Proof.
  unfold frame.
  now destruct (DebugPlane_draw_pipeline _ (useFrame_currentTarget t
                  (DebugPlane_useFrame (heightmapFBO1 s) s))) as (_ & -> & _).
Qed.

Lemma frame_sim_uniforms (t : R) (s : State) :
  sim_uniforms (frame t s) = {| uTime := t; uPrevState := Some (read (fbos s)) |}.
Proof.
  unfold frame.
  destruct (DebugPlane_draw_pipeline _ (useFrame_currentTarget t
              (DebugPlane_useFrame (heightmapFBO1 s) s))) as (_ & _ & _ & -> & _).
  rewrite useFrame_sim_uniforms.
  destruct (DebugPlane_useFrame_pipeline (heightmapFBO1 s) s) as (_ & -> & _).
  reflexivity.
Qed.

Lemma frame_ids (t : R) (s : State) :
  heightmapFBO1 (frame t s) = heightmapFBO1 s
  /\ heightmapFBO2 (frame t s) = heightmapFBO2 s.
Proof.
  unfold frame.
  destruct (DebugPlane_draw_pipeline _ (useFrame_currentTarget t
              (DebugPlane_useFrame (heightmapFBO1 s) s)))
    as (_ & _ & _ & _ & _ & _ & _ & -> & ->).
  destruct (useFrame_debug t (DebugPlane_useFrame (heightmapFBO1 s) s))
    as (_ & _ & _ & -> & ->).
  destruct (DebugPlane_useFrame_pipeline (heightmapFBO1 s) s)
    as (_ & _ & _ & _ & _ & _ & -> & ->).
  split; reflexivity.
Qed.

Lemma wf_Ocean : wf (Ocean fresh).
Proof. unfold wf. cbn. repeat split; auto. Qed.

Lemma wf_mount (s : State) : wf s -> wf (mount s).
Proof. unfold wf. cbn. tauto. Qed.

Lemma wf_frame (t : R) (s : State) : wf s -> wf (frame t s).
Proof.
  intros (Hc & Hl & H1 & H2 & Hf). unfold wf.
  rewrite frame_currentTarget, frame_targets, frame_fbos, length_alter.
  destruct (frame_ids t s) as (-> & ->).
  repeat split; try assumption.
  destruct Hf as [-> | ->]; cbn; auto.
Qed.

Lemma reachable_wf (s : State) : reachable s -> wf s.
Proof.
  induction 1; [apply wf_Ocean | now apply wf_mount | now apply wf_frame].
Qed.

Lemma reachable_frames (clock : nat -> R) (n : nat) (s : State) :
  reachable s -> reachable (frames clock n s).
Proof.
  intros Hs. induction n as [| n IH]; cbn; [assumption |].
  now apply reachable_frame.
Qed.

(** The texels a frame leaves in the target it renders to. *)
Lemma frame_written (t : R) (s : State) (vUv : vec2) :
  wf s ->
  sample (gl (frame t s)) (Some (write (fbos s))) vUv = Some (heightmap t vUv).
Proof.
  intros (Hc & Hl & H1 & H2 & Hf).
  unfold sample. rewrite frame_targets.
  assert (Hw : (write (fbos s) < List.length (targets (gl s)))%nat).
  { rewrite Hl. destruct Hf as [-> | ->]; cbn; lia. }
  destruct (lookup_lt_is_Some_2 _ _ Hw) as [tg Htg].
  rewrite list_lookup_alter_eq, Htg. cbn.
  apply simMaterial_main_heightmap.
Qed.

(** A frame leaves the other target as it was. *)
Lemma frame_kept (t : R) (s : State) (i : TargetRef) :
  i <> write (fbos s) ->
  sample (gl (frame t s)) (Some i) = sample (gl s) (Some i).
Proof.
  intros Hi. unfold sample. rewrite frame_targets.
  rewrite list_lookup_alter_ne by congruence. reflexivity.
Qed.

Lemma Fbos_eta (f : Fbos) : {| read := read f; write := write f |} = f.
Proof. now destruct f. Qed.

Lemma frames_S (clock : nat -> R) (n : nat) (s : State) :
  frames clock (S n) s = frame (clock n) (frames clock n s).
Proof. cbn [frames]. reflexivity. Qed.

Lemma frames_two (clock : nat -> R) (n : nat) (s : State) :
  fbos (frames clock (2 * n) s) = fbos s.
Proof.
  induction n as [| n IH]; [reflexivity |].
  replace (2 * S n)%nat with (S (S (2 * n))) by lia.
  cbn [frames]. rewrite !frame_fbos. cbn [read write].
  rewrite Fbos_eta. exact IH.
Qed.

(** C7. The frame callback swaps the read and write roles in every frame,
    whether or not the ocean mesh is mounted: after an even number of
    frames the roles are those of frame 0, after an odd number they are
    exchanged.  Started from the component's first render, the read buffer
    is [heightmapFBO1] after an even number of frames and [heightmapFBO2],
    a different target, after an odd number. *)
Theorem pingpong_parity (clock : nat -> R) (n : nat) (s : State) :
  fbos (frame (clock 0%nat) s)
  = {| read := write (fbos s); write := read (fbos s) |}
  /\ read (fbos (frames clock (2 * n) s)) = read (fbos s)
  /\ write (fbos (frames clock (2 * n) s)) = write (fbos s)
  /\ read (fbos (frames clock (2 * n + 1) s)) = write (fbos s)
  /\ write (fbos (frames clock (2 * n + 1) s)) = read (fbos s)
  /\ (let s0 := mount (Ocean fresh) in
      read (fbos (frames clock (2 * n) s0)) = heightmapFBO1 s0
      /\ read (fbos (frames clock (2 * n + 1) s0)) = heightmapFBO2 s0
      /\ heightmapFBO1 s0 <> heightmapFBO2 s0).
Proof.
  assert (odd : forall s', fbos (frames clock (2 * n + 1) s')
                = {| read := write (fbos s'); write := read (fbos s') |}).
  { intros s'. replace (2 * n + 1)%nat with (S (2 * n)) by lia.
    cbn [frames]. now rewrite frame_fbos, frames_two. }
  split; [apply frame_fbos |].
  cbv zeta. rewrite !frames_two, !odd. cbn [read write].
  repeat split; try reflexivity.
  cbn. lia.
Qed.

(** C6 (as stated, refuted). The first frame and the third frame both
    read [heightmapFBO1]; before the first frame it is cleared, before the
    third it holds the heightmap written by the second, so the two read
    buffers differ at every texel.  Run at the same elapsed time, the two
    frames nevertheless write the same heightmap: the simulation pass does
    not sample the read buffer. *)
Lemma sim_pass_ignores_read_buffer :
  let s1 := mount (Ocean fresh) in
  let s3 := frames (fun _ => 0) 2 s1 in
  read (fbos s1) = read (fbos s3)
  /\ (forall vUv : vec2,
        sample (gl s1) (Some (read (fbos s1))) vUv
        <> sample (gl s3) (Some (read (fbos s3))) vUv)
  /\ (forall vUv : vec2,
        sample (gl (frame 1 s1)) (Some (write (fbos s1))) vUv
        = sample (gl (frame 1 s3)) (Some (write (fbos s3))) vUv).
Proof.
  intros s1 s3.
  assert (W1 : wf s1) by (apply wf_mount, wf_Ocean).
  assert (W2 : wf (frame 0 s1)) by now apply wf_frame.
  assert (W3 : wf s3) by (subst s3; cbn [frames]; now apply wf_frame).
  assert (F3 : fbos s3 = fbos s1).
  { subst s3. cbn [frames]. rewrite !frame_fbos. cbn [read write].
    apply Fbos_eta. }
  split; [now rewrite F3 | split].
  - intros vUv. rewrite F3.
    replace (read (fbos s1)) with (write (fbos (frame 0 s1)))
      by now rewrite frame_fbos.
    subst s3. cbn [frames]. rewrite frame_written by assumption.
    rewrite frame_fbos. cbn [write].
    replace (sample (gl s1) (Some (read (fbos s1))) vUv)
      with (Some (Vec4 0 0 0 0)) by reflexivity.
    intros E.
    apply (f_equal (fun o => match o with Some v => w4 v | None => 0 end)) in E.
    unfold heightmap in E. cbn [w4] in E. lra.
  - intros vUv. now rewrite !frame_written.
Qed.

(** C6 (amended). In every frame the simulation pass renders into the
    write buffer with [uPrevState] bound to the read buffer, and the
    buffer written by frame [n] is the read buffer of frame [n+1]; so
    frame [n+1] has the output of frame [n] bound as its sampler input and
    renders into the other buffer.  The fragment program never samples
    that input: the heightmap frame [n+1] writes is a function of the
    texel coordinate and of the elapsed time only. *)
Theorem sim_pass_input (clock : nat -> R) (n : nat) (s0 : State) :
  reachable s0 ->
  let a := frames clock n s0 in
  let b := frames clock (S n) s0 in
  let c := frames clock (S (S n)) s0 in
  read (fbos b) = write (fbos a)
  /\ (forall vUv : vec2,
        sample (gl b) (Some (read (fbos b))) vUv = Some (heightmap (clock n) vUv))
  /\ uPrevState (sim_uniforms c) = Some (read (fbos b))
  /\ write (fbos b) <> read (fbos b)
  /\ (forall vUv : vec2,
        sample (gl c) (Some (write (fbos b))) vUv
        = Some (heightmap (clock (S n)) vUv))
  /\ (forall (t : R) (prev prev' : sampler2D) (vUv : vec2),
        simMaterial_main t prev vUv = simMaterial_main t prev' vUv).
Proof.
  intros Hs a b c.
  assert (Wa : wf a) by (apply reachable_wf; now apply reachable_frames).
  assert (Eb : b = frame (clock n) a) by (subst a b; apply frames_S).
  assert (Ec : c = frame (clock (S n)) b) by (subst b c; apply frames_S).
  clearbody a b c. subst b c.
  assert (Wb : wf (frame (clock n) a)) by now apply wf_frame.
  rewrite frame_sim_uniforms, !frame_fbos. cbn [read write uPrevState].
  split; [reflexivity |].
  split; [intros vUv; now apply frame_written |].
  split; [reflexivity |].
  split; [destruct Wa as (_ & _ & _ & _ & [-> | ->]); cbn [read write]; lia |].
  split.
  - intros vUv.
    replace (read (fbos a)) with (write (fbos (frame (clock n) a)))
      by (rewrite frame_fbos; reflexivity).
    now apply frame_written.
  - intros t prev prev' vUv. now rewrite !simMaterial_main_heightmap.
Qed.

Lemma sim_pass_input_witness :
  read (fbos (frames (fun _ => 0) 1 (Ocean fresh)))
  = write (fbos (frames (fun _ => 0) 0 (Ocean fresh))).
Proof.
  exact (proj1 (sim_pass_input (fun _ => 0) 0 (Ocean fresh) reachable_Ocean)).
Defined.

End PingPong.

(** ** [App.jsx]: the frame of the spectral pipeline *)

Section SpectralFrame.

Variable c : Config.

Lemma App_useFrame_gl (t : R) (s : State) :
  gl (Ocean_useFrame c t s)
  = {| targets :=
         alter (with_texture cleared) (fbo_phillips (fbos s)) (targets (gl s));
       currentTarget := None;
       canvas := canvas (gl s);
       calls := calls (gl s) ++ [Some (fbo_phillips (fbos s))] |}.
Proof. unfold Ocean_useFrame. cbn. destruct (meshRef s); reflexivity. Qed.

Lemma App_useFrame_kept (t : R) (s : State) :
  fbos (Ocean_useFrame c t s) = fbos s
  /\ materials (Ocean_useFrame c t s) = materials s
  /\ debug_uniforms (Ocean_useFrame c t s) = debug_uniforms s
  /\ computeQuad_material (Ocean_useFrame c t s) = materials_phillips
  /\ meshRef (Ocean_useFrame c t s) = meshRef s
  /\ debug_meshRef (Ocean_useFrame c t s) = debug_meshRef s.
Proof.
  unfold Ocean_useFrame. cbn.
  destruct (meshRef s) eqn:E; cbn; rewrite ?E; repeat split; reflexivity.
Qed.

Lemma App_useFrame_ocean (t : R) (s : State) :
  ocean_uniforms (Ocean_useFrame c t s)
  = if meshRef s
    then {| ocean_uTime := t;
            uDisplacement := Some (fbo_phillips (fbos s));
            uNormalMap := uNormalMap (ocean_uniforms s) |}
    else ocean_uniforms s.
Proof. unfold Ocean_useFrame. cbn. destruct (meshRef s); reflexivity. Qed.

Lemma DebugView_useFrame_pipeline (tex : Texture) (s : State) :
  gl (DebugView_useFrame tex s) = gl s
  /\ fbos (DebugView_useFrame tex s) = fbos s
  /\ materials (DebugView_useFrame tex s) = materials s
  /\ ocean_uniforms (DebugView_useFrame tex s) = ocean_uniforms s
  /\ computeQuad_material (DebugView_useFrame tex s) = computeQuad_material s
  /\ meshRef (DebugView_useFrame tex s) = meshRef s
  /\ debug_meshRef (DebugView_useFrame tex s) = debug_meshRef s.
Proof.
  unfold DebugView_useFrame.
  destruct (debug_meshRef s) eqn:E; cbn; rewrite ?E; repeat split; reflexivity.
Qed.

Lemma DebugView_draw_pipeline (s : State) :
  currentTarget (gl s) = None ->
  targets (gl (DebugView_draw s)) = targets (gl s)
  /\ currentTarget (gl (DebugView_draw s)) = None
  /\ fbos (DebugView_draw s) = fbos s
  /\ materials (DebugView_draw s) = materials s
  /\ ocean_uniforms (DebugView_draw s) = ocean_uniforms s
  /\ computeQuad_material (DebugView_draw s) = computeQuad_material s
  /\ meshRef (DebugView_draw s) = meshRef s
  /\ debug_meshRef (DebugView_draw s) = debug_meshRef s.
Proof.
  intros Hcur. unfold DebugView_draw.
  destruct (debug_meshRef s) eqn:E; cbn; rewrite ?E; [| repeat split; auto].
  unfold render. rewrite Hcur. cbn. repeat split; reflexivity.
Qed.

Lemma App_useFrame_currentTarget (t : R) (s : State) :
  currentTarget (gl (Ocean_useFrame c t s)) = None.
Proof. now rewrite App_useFrame_gl. Qed.

Lemma App_wf_Ocean : App_wf c (Ocean c fresh).
Proof. unfold App_wf. cbn. repeat split; reflexivity. Qed.

Lemma App_wf_mount (s : State) : App_wf c s -> App_wf c (mount s).
Proof. unfold App_wf. cbn. tauto. Qed.

Lemma App_wf_useFrame (t : R) (s : State) :
  App_wf c s -> App_wf c (Ocean_useFrame c t s).
Proof.
  intros (Hc & Hl & Hf & Hm). unfold App_wf.
  rewrite App_useFrame_gl. cbn [targets currentTarget].
  destruct (App_useFrame_kept t s) as (-> & -> & _).
  rewrite length_alter. auto.
Qed.

Lemma App_wf_DebugView_useFrame (tex : Texture) (s : State) :
  App_wf c s -> App_wf c (DebugView_useFrame tex s).
Proof.
  unfold App_wf.
  destruct (DebugView_useFrame_pipeline tex s) as (-> & -> & -> & _). auto.
Qed.

Lemma App_wf_DebugView_draw (s : State) :
  App_wf c s -> App_wf c (DebugView_draw s).
Proof.
  intros (Hc & Hl & Hf & Hm). unfold App_wf.
  destruct (DebugView_draw_pipeline s Hc) as (-> & -> & -> & -> & _). auto.
Qed.

Lemma App_reachable_wf (s : State) : reachable c s -> App_wf c s.
Proof.
  induction 1.
  - apply App_wf_Ocean.
  - now apply App_wf_mount.
  - unfold frame.
    now apply App_wf_DebugView_draw, App_wf_useFrame, App_wf_DebugView_useFrame.
Qed.



End SpectralFrame.

(** ** Debug views *)

(** C9. Binding a texture to the debug material and drawing the debug quad
    changes no pipeline state, in either file: the render targets and
    their texels, the current render target, the uniforms of the
    simulation and ocean materials, the material on the compute quad and
    the read and write roles are what they were.  The states are those the
    application reaches, where no render target is left bound when the
    scene is drawn. *)
Theorem debug_read_only (c : Config) (sa : App.State) (so : OceanJsx.State)
    (texture : Texture) :
  App.reachable c sa ->
  OceanJsx.reachable so ->
  (let sa' := App.DebugView_draw (App.DebugView_useFrame texture sa) in
   targets (App.gl sa') = targets (App.gl sa)
   /\ currentTarget (App.gl sa') = currentTarget (App.gl sa)
   /\ App.fbos sa' = App.fbos sa
   /\ App.materials sa' = App.materials sa
   /\ App.ocean_uniforms sa' = App.ocean_uniforms sa
   /\ App.computeQuad_material sa' = App.computeQuad_material sa)
  /\ (let so' := OceanJsx.DebugPlane_draw (OceanJsx.DebugPlane_useFrame texture so) in
      targets (OceanJsx.gl so') = targets (OceanJsx.gl so)
      /\ currentTarget (OceanJsx.gl so') = currentTarget (OceanJsx.gl so)
      /\ OceanJsx.fbos so' = OceanJsx.fbos so
      /\ OceanJsx.sim_uniforms so' = OceanJsx.sim_uniforms so
      /\ OceanJsx.ocean_uniforms so' = OceanJsx.ocean_uniforms so).
Proof.
  intros Ha Ho. split; cbv zeta.
  - destruct (App_reachable_wf c sa Ha) as (Hc & _).
    destruct (DebugView_useFrame_pipeline texture sa)
      as (Eg & Ef & Em & Eo & Eq & _).
    assert (Hc' : currentTarget (App.gl (App.DebugView_useFrame texture sa)) = None)
      by now rewrite Eg.
    destruct (DebugView_draw_pipeline _ Hc') as (-> & -> & -> & -> & -> & -> & _).
    rewrite Eg, Ef, Em, Eo, Eq, Hc. repeat split; reflexivity.
  - destruct (reachable_wf so Ho) as (Hc & _).
    destruct (DebugPlane_useFrame_pipeline texture so)
      as (Eg & Ef & Es & Eo & _).
    assert (Hc' : currentTarget (OceanJsx.gl (OceanJsx.DebugPlane_useFrame texture so)) = None)
      by now rewrite Eg.
    destruct (DebugPlane_draw_pipeline _ Hc') as (-> & -> & -> & -> & -> & _).
    rewrite Eg, Ef, Es, Eo, Hc. repeat split; reflexivity.
Qed.

Lemma debug_read_only_witness :
  (App.debug_meshRef (App.frame config 1 (App.mount (App.Ocean config fresh))) = true
   /\ OceanJsx.debugRef (OceanJsx.frame 1 (OceanJsx.mount (OceanJsx.Ocean fresh))) = true)
  /\ targets
       (App.gl
          (App.DebugView_draw
             (App.DebugView_useFrame 1%nat
                (App.frame config 1 (App.mount (App.Ocean config fresh))))))
     = targets (App.gl (App.frame config 1 (App.mount (App.Ocean config fresh))))
  /\ targets
       (OceanJsx.gl
          (OceanJsx.DebugPlane_draw
             (OceanJsx.DebugPlane_useFrame 1%nat
                (OceanJsx.frame 1 (OceanJsx.mount (OceanJsx.Ocean fresh))))))
     = targets (OceanJsx.gl (OceanJsx.frame 1 (OceanJsx.mount (OceanJsx.Ocean fresh)))).
Proof.
  split; [split; reflexivity |].
  pose proof
    (debug_read_only config
       (App.frame config 1 (App.mount (App.Ocean config fresh)))
       (OceanJsx.frame 1 (OceanJsx.mount (OceanJsx.Ocean fresh))) 1%nat
       (App.reachable_frame config _ 1
          (App.reachable_mount config _ (App.reachable_Ocean config)))
       (OceanJsx.reachable_frame _ 1
          (OceanJsx.reachable_mount _ OceanJsx.reachable_Ocean))) as H.
  cbv zeta in H.
  exact (conj (proj1 (proj1 H)) (proj1 (proj2 H))).
Defined.

(** ** Initialisation *)

Lemma three_not_power_of_two : ~ power_of_two 3.
Proof.
  intros [m Hm]. destruct m as [| m].
  - cbn in Hm. lia.
  - rewrite Nat2Z.inj_succ, Z.pow_succ_r in Hm by lia. lia.
Qed.

Lemma config_valid : valid config.
Proof.
  unfold valid, config, cfg_RESOLUTION, cfg_WIND_SPEED, cfg_GRAVITY,
    RESOLUTION, WIND_SPEED, GRAVITY.
  split; [| split; lra].
  exists 8%nat. reflexivity.
Qed.

(** C8 (as stated, refuted). With resolution 3, which is not a power of
    two, the component does not throw: it returns, and the renderer holds
    seven 3×3 render targets. *)
Lemma invalid_resolution_accepted :
  let c := {| cfg_RESOLUTION := 3; cfg_WIND_SPEED := WIND_SPEED;
              cfg_WIND_DIRECTION := WIND_DIRECTION; cfg_GRAVITY := GRAVITY |} in
  ~ valid c
  /\ run_Ocean c fresh <> Thrown ConfigurationError
  /\ exists s : State,
       run_Ocean c fresh = Returned s
       /\ List.length (targets (gl s)) = 7%nat
       /\ Forall (fun t => width t = 3%Z /\ height t = 3%Z) (targets (gl s)).
Proof.
  cbv zeta. split; [| split].
  - intros (H & _). cbn in H. now apply three_not_power_of_two.
  - unfold run_Ocean. discriminate.
  - eexists. split; [reflexivity |]. split; [reflexivity |].
    cbn. repeat constructor.
Qed.

(** C8 (amended). The component performs no validation: for every
    configuration, valid or not, the first render returns without throwing
    after creating seven render targets of the configured resolution and
    the three shader materials.  The constants the source ships are a
    valid configuration: 256 is a power of two, and wind speed and gravity
    are positive. *)
Theorem Ocean_never_rejects (c : Config) (g : WebGLRenderer) :
  valid config
  /\ exists s : State,
       run_Ocean c g = Returned s
       /\ targets (gl s)
          = targets g
            ++ repeat {| width := cfg_RESOLUTION c; height := cfg_RESOLUTION c;
                         options := format; texture := cleared |} 7
       /\ materials s = create_materials c.
Proof.
  split; [apply config_valid |].
  eexists. split; [reflexivity |]. split; [| reflexivity].
  cbn. rewrite <- !app_assoc. reflexivity.
Qed.

(** ** The FFT stage *)

Section Fourier.








End Fourier.

(** * Further properties *)

(** ** The Phillips spectrum: symmetries and bounds *)

Section PhillipsMore.

Lemma length_neg2 (k : vec2) : length (neg2 k) = length k.
Proof. unfold length, dot, neg2. cbn [x2 y2]. f_equal. ring. Qed.

(** [phillips] sees the wave vector and the wind direction only through
    the length of the first and the square of their normalised dot
    product. *)
Lemma phillips_congruence (u u' : PhillipsUniforms) (k k' : vec2) :
  length k' = length k ->
  uWindSpeed u' * uWindSpeed u' = uWindSpeed u * uWindSpeed u ->
  uGravity u' = uGravity u ->
  uAlpha u' = uAlpha u ->
  (length k <> 0 ->
   let d := dot (Vec2 (x2 k / length k) (y2 k / length k)) (uWindDirection u) in
   let d' := dot (Vec2 (x2 k' / length k) (y2 k' / length k)) (uWindDirection u') in
   d' * d' = d * d) ->
  phillips u' k' = phillips u k.
Proof.
  intros Hlen HW Hg Ha Hd. unfold phillips. rewrite Hlen, HW, Hg, Ha.
  destruct (Rlt_dec (length k) 0.0001) as [_ | Hk]; [reflexivity |].
  assert (Hnz : length k <> 0) by lra.
  destruct (fdiv (uWindSpeed u * uWindSpeed u) (uGravity u)) as [L |];
    [| reflexivity].
  cbn [mbind option_bind].
  unfold normalize. rewrite Hlen. rewrite !(fdiv_Some _ (length k)) by assumption.
  cbn [mbind option_bind]. cbv zeta in Hd. rewrite (Hd Hnz). reflexivity.
Qed.

(** X1. The spectrum is even in the wave vector, whatever the uniforms are
    and also where it is undefined; so the texture the Phillips program
    computes is symmetric about its centre. *)
Theorem phillips_even (u : PhillipsUniforms) (k : vec2) (N : Z) (vUv : vec2) :
  phillips u (neg2 k) = phillips u k
  /\ phillipsSpectrum_main N u (Vec2 (1 - x2 vUv) (1 - y2 vUv))
     = phillipsSpectrum_main N u vUv.
Proof.
  assert (even : forall k', phillips u (neg2 k') = phillips u k').
  { intros k'. apply phillips_congruence; try reflexivity.
    - apply length_neg2.
    - intros Hnz. cbv zeta. unfold dot, neg2. cbn [x2 y2]. field.
      exact Hnz. }
  split; [apply even |].
  unfold phillipsSpectrum_main.
  replace (wave_vector N (Vec2 (1 - x2 vUv) (1 - y2 vUv)))
    with (neg2 (wave_vector N vUv)).
  - now rewrite even.
  - unfold wave_vector, neg2. cbn [x2 y2].
    replace (1 - x2 vUv - 0.5) with (- (x2 vUv - 0.5)) by lra.
    replace (1 - y2 vUv - 0.5) with (- (y2 vUv - 0.5)) by lra.
    f_equal; ring.
Qed.

(** X2. Reversing the wind direction, or the sign of the wind speed, does
    not change the spectrum: waves that travel against the wind are not
    suppressed, and the speed enters through its square only. *)
Theorem phillips_wind_sign (u : PhillipsUniforms) (k : vec2) :
  phillips (with_uWindDirection (neg2 (uWindDirection u)) u) k = phillips u k
  /\ phillips (with_uWindSpeed (- uWindSpeed u) u) k = phillips u k.
Proof.
  split; apply phillips_congruence; try reflexivity.
  - intros _. cbv zeta. unfold dot, neg2. cbn [x2 y2 uWindDirection with_uWindDirection].
    ring.
  - cbn [uWindSpeed with_uWindSpeed]. ring.
Qed.

Lemma length_sqr (k : vec2) : length k * length k = dot k k.
Proof. unfold length. apply sqrt_sqrt, dot_self_nonneg. Qed.

Lemma exp_le_1 (x : R) : x <= 0 -> exp x <= 1.
Proof.
  intros [H | ->]; [| rewrite exp_0; lra].
  left. rewrite <- exp_0. now apply exp_increasing.
Qed.

(** X3. A wave vector orthogonal to the wind direction carries no energy:
    under a non-zero wind and positive gravity the spectrum is the defined
    value 0 there. *)
Theorem phillips_orthogonal (u : PhillipsUniforms) (k : vec2) :
  0 < uWindSpeed u ->
  0 < uGravity u ->
  dot k (uWindDirection u) = 0 ->
  phillips u k = Some 0.
Proof.
  intros Hw Hg Hd.
  destruct (Rlt_dec (length k) 0.0001) as [Hk | Hk].
  - unfold phillips.
    destruct (Rlt_dec (length k) 0.0001); [f_equal; lra | contradiction].
  - rewrite (phillips_away u Hw Hg k Hk). f_equal.
    unfold phillips_value. cbv zeta.
    replace (dot (Vec2 (x2 k / length k) (y2 k / length k)) (uWindDirection u))
      with (dot k (uWindDirection u) / length k)
      by (unfold dot; cbn [x2 y2]; field; lra).
    rewrite Hd. unfold Rdiv. ring.
Qed.

Lemma phillips_orthogonal_witness :
  phillips {| uWindSpeed := 10; uWindDirection := Vec2 1 0;
              uGravity := 9.81; uAlpha := 0.0081 |} (Vec2 0 5) = Some 0.
Proof.
  apply (phillips_orthogonal
           {| uWindSpeed := 10; uWindDirection := Vec2 1 0;
              uGravity := 9.81; uAlpha := 0.0081 |} (Vec2 0 5)); cbn.
  - lra.
  - lra.
  - unfold dot; cbn. ring.
Defined.

(** The normalised dot product is at most 1 in absolute value when the
    wind direction is a unit vector. *)
Lemma kDotW_sqr_le_1 (k w : vec2) :
  0 < length k -> length w = 1 ->
  let d := dot (Vec2 (x2 k / length k) (y2 k / length k)) w in
  0 <= d * d <= 1.
Proof.
  intros Hk Hw d. split; [nra |].
  pose proof (length_sqr k) as Ek. pose proof (length_sqr w) as Ew.
  rewrite Hw in Ew. unfold dot in Ek, Ew.
  subst d. unfold dot. cbn [x2 y2].
  set (l := length k) in *. set (a := x2 k) in *. set (b := y2 k) in *.
  set (p := x2 w) in *. set (q := y2 w) in *.
  assert (En : a / l * (a / l) + b / l * (b / l) = 1).
  { replace (a / l * (a / l) + b / l * (b / l)) with ((a * a + b * b) / (l * l))
      by (field; lra).
    rewrite <- Ek. field. lra. }
  clearbody l a b p q.
  set (x := a / l) in *. set (y := b / l) in *. clearbody x y.
  assert (Hprod : (x * x + y * y) * (p * p + q * q) = 1)
    by (rewrite En, <- Ew; ring).
  pose proof (Rle_0_sqr (x * q - y * p)) as Hsq. unfold Rsqr in Hsq.
  nra.
Qed.

(** X4. Away from the origin, under the parameters of a physical wind
    (non-negative alpha, non-zero speed, unit direction, positive
    gravity), the spectrum is at most [alpha / |k|^4]; as [|k|] is at least
    0.0001 there, no texel exceeds [alpha * 10^16]. *)
Theorem phillips_upper_bound (u : PhillipsUniforms) (k : vec2) :
  0 <= uAlpha u ->
  0 < uWindSpeed u ->
  length (uWindDirection u) = 1 ->
  0 < uGravity u ->
  ~ length k < 0.0001 ->
  exists P : R,
    phillips u k = Some P
    /\ 0 <= P
    /\ P <= uAlpha u / (length k * length k * length k * length k)
    /\ P <= uAlpha u * 10 ^ 16.
Proof.
  intros Ha Hw Hdir Hg Hk.
  assert (Hlen : 0 < length k) by lra.
  exists (phillips_value u k).
  split; [now apply phillips_away |].
  split; [apply phillips_value_nonneg; assumption |].
  pose proof (largest_wave_pos u Hw Hg) as HL.
  pose proof (kDotW_sqr_le_1 k (uWindDirection u) Hlen Hdir) as Hd.
  cbv zeta in Hd.
  assert (Hb : phillips_value u k
               <= uAlpha u / (length k * length k * length k * length k)).
  { unfold phillips_value. cbv zeta.
    set (L := uWindSpeed u * uWindSpeed u / uGravity u) in *. clearbody L.
    set (d := dot _ _) in *. clearbody d.
    set (e1 := exp (- 1.0 / _)).
    set (e2 := exp (- length k * length k * _)).
    assert (H1 : 0 < e1 <= 1).
    { split; [apply exp_pos |]. apply exp_le_1.
      assert (0 < length k * length k * L * L)
        by (repeat apply Rmult_lt_0_compat; lra).
      unfold Rdiv. assert (0 < / (length k * length k * L * L))
        by now apply Rinv_0_lt_compat.
      nra. }
    assert (H2 : 0 < e2 <= 1).
    { split; [apply exp_pos |]. apply exp_le_1.
      assert (0 <= L / 1000.0 * (L / 1000.0)) by nra.
      assert (0 <= length k * length k) by nra.
      nra. }
    clearbody e1 e2.
    assert (H4 : 0 < / (length k * length k * length k * length k)).
    { apply Rinv_0_lt_compat. repeat apply Rmult_lt_0_compat; lra. }
    unfold Rdiv. apply Rmult_le_compat_r; [lra |].
    assert (0 <= uAlpha u * e1 <= uAlpha u) by nra.
    assert (0 <= uAlpha u * e1 * (d * d) <= uAlpha u) by nra.
    nra. }
  split; [exact Hb |].
  eapply Rle_trans; [exact Hb |].
  unfold Rdiv. apply Rmult_le_compat_l; [assumption |].
  assert (Hk4 : / 10 ^ 16 <= length k * length k * length k * length k).
  { assert (Hk1 : 0.0001 <= length k) by lra.
    assert (0.0001 * 0.0001 <= length k * length k) by nra.
    assert (0.0001 * 0.0001 * (0.0001 * 0.0001)
            <= length k * length k * (length k * length k)) by nra.
    replace (/ 10 ^ 16) with (0.0001 * 0.0001 * (0.0001 * 0.0001)) by (field_simplify; lra).
    lra. }
  rewrite <- (Rinv_inv (10 ^ 16)).
  apply Rinv_le_contravar; [| exact Hk4].
  apply Rinv_0_lt_compat. apply pow_lt. lra.
Qed.

Lemma phillips_upper_bound_witness :
  exists P : R,
    phillips {| uWindSpeed := 10; uWindDirection := Vec2 1 0;
                uGravity := 9.81; uAlpha := 0.0081 |} (Vec2 1 0) = Some P
    /\ 0 <= P
    /\ P <= 0.0081 / (length (Vec2 1 0) * length (Vec2 1 0)
                      * length (Vec2 1 0) * length (Vec2 1 0))
    /\ P <= 0.0081 * 10 ^ 16.
Proof.
  assert (one : length (Vec2 1 0) = 1).
  { unfold length, dot; cbn. replace (1 * 1 + 0 * 0) with 1 by ring.
    apply sqrt_1. }
  apply (phillips_upper_bound
           {| uWindSpeed := 10; uWindDirection := Vec2 1 0;
              uGravity := 9.81; uAlpha := 0.0081 |} (Vec2 1 0)); cbn.
  - lra.
  - lra.
  - exact one.
  - lra.
  - rewrite one. lra.
Defined.

End PhillipsMore.

(** ** Wave vectors and time evolution *)

Section Evolution.

Lemma two_PI_N_nonzero (N : Z) : N <> 0%Z -> 2.0 * PI * IZR N <> 0.
Proof.
  intros HN. pose proof PI_RGT_0 as Hpi. unfold PI.
  assert (IZR N <> 0) by (now apply not_0_IZR).
  apply Rmult_integral_contrapositive_currified; [lra | assumption].
Qed.

(** X6. For a resolution other than zero the map from texture coordinates
    to wave vectors is a bijection: different texels never share a wave
    vector, and every wave vector is that of some coordinate. *)
Theorem wave_vector_bijective (N : Z) :
  N <> 0%Z ->
  (forall a b : vec2, wave_vector N a = wave_vector N b -> a = b)
  /\ (forall k : vec2, exists vUv : vec2, wave_vector N vUv = k).
Proof.
  intros HN. pose proof (two_PI_N_nonzero N HN) as Hc. split.
  - intros [ax ay] [bx by_] E. unfold wave_vector in E. cbn [x2 y2] in E.
    injection E as Ex Ey.
    assert (Hx : 2.0 * PI * IZR N * (ax - 0.5) = 2.0 * PI * IZR N * (bx - 0.5)).
    { replace (2.0 * PI * IZR N * (ax - 0.5))
        with (2.0 * PI * (ax - 0.5) * IZR N) by ring.
      rewrite Ex. ring. }
    assert (Hy : 2.0 * PI * IZR N * (ay - 0.5) = 2.0 * PI * IZR N * (by_ - 0.5)).
    { replace (2.0 * PI * IZR N * (ay - 0.5))
        with (2.0 * PI * (ay - 0.5) * IZR N) by ring.
      rewrite Ey. ring. }
    apply Rmult_eq_reg_l in Hx; [| assumption].
    apply Rmult_eq_reg_l in Hy; [| assumption].
    f_equal; lra.
  - intros [kx ky].
    exists (Vec2 (kx / (2.0 * PI * IZR N) + 0.5) (ky / (2.0 * PI * IZR N) + 0.5)).
    unfold wave_vector. cbn [x2 y2].
    set (c := 2.0 * PI * IZR N) in *.
    replace (2.0 * PI * (kx / c + 0.5 - 0.5) * IZR N) with (c * (kx / c))
      by (subst c; ring).
    replace (2.0 * PI * (ky / c + 0.5 - 0.5) * IZR N) with (c * (ky / c))
      by (subst c; ring).
    f_equal; field; assumption.
Qed.

Lemma wave_vector_bijective_witness :
  exists vUv : vec2, wave_vector RESOLUTION vUv = Vec2 1 2.
Proof.
  apply (wave_vector_bijective RESOLUTION). unfold RESOLUTION. lia.
Defined.

Lemma cos_plus_2PI (x : R) : cos (x + 2 * Rtrigo1.PI) = cos x.
Proof. rewrite cos_plus, cos_2PI, sin_2PI. ring. Qed.

(** X7. The time-evolved amplitude is even in the elapsed time and, at a
    texel away from the origin, periodic in it with period [2 pi / w],
    [w = sqrt(g * |k|)]: after one period of a texel's wave the texel is
    back at its value. *)
Theorem timeEvolution_periodic (N : Z) (g : R) (uInitialSpectrum : sampler2D)
    (t : R) (vUv : vec2) :
  0 < g ->
  0 < length (wave_vector N vUv) ->
  let w := sqrt (g * length (wave_vector N vUv)) in
  0 < w
  /\ timeEvolution_main N g uInitialSpectrum (t + 2 * PI / w) vUv
     = timeEvolution_main N g uInitialSpectrum t vUv
  /\ timeEvolution_main N g uInitialSpectrum (- t) vUv
     = timeEvolution_main N g uInitialSpectrum t vUv.
Proof.
  intros Hg Hk w.
  assert (Hw : 0 < w) by (apply sqrt_lt_R0; nra).
  split; [exact Hw |].
  unfold timeEvolution_main.
  destruct (texture2D uInitialSpectrum vUv) as [h0 |]; [| split; reflexivity].
  cbn [mbind option_bind].
  rewrite fsqrt_Some by nra. cbn [mbind option_bind]. fold w.
  replace (w * (t + 2 * PI / w)) with (w * t + 2 * Rtrigo1.PI)
    by (unfold PI; field; lra).
  rewrite cos_plus_2PI.
  replace (w * - t) with (- (w * t)) by ring. rewrite cos_neg.
  split; reflexivity.
Qed.

Lemma timeEvolution_periodic_witness :
  0 < sqrt (GRAVITY * length (wave_vector RESOLUTION (Vec2 1 0.5))).
Proof.
  apply (timeEvolution_periodic RESOLUTION GRAVITY (fun _ => None) 0 (Vec2 1 0.5)).
  - apply GRAVITY_pos.
  - unfold wave_vector, length, dot, RESOLUTION. cbn [x2 y2].
    apply sqrt_lt_R0. pose proof PI_RGT_0. unfold PI.
    assert (0 < 2.0 * Rtrigo1.PI * (1 - 0.5) * 256) by lra.
    nra.
Defined.

(** X8. The mean of the surface never moves: at the texel whose wave
    vector is zero the Phillips program computes 0 whatever the wind
    parameters are, so the initial spectrum built on it is zero for any
    noise, and the time evolution of that is zero at every time and for
    any gravity constant. *)
Theorem pipeline_DC_is_zero (N : Z) (u : PhillipsUniforms) (g t : R)
    (uNoise : sampler2D) (noise : vec4) :
  texture2D uNoise (Vec2 0.5 0.5) = Some noise ->
  initialSpectrum_main (phillipsSpectrum_main N u) uNoise (Vec2 0.5 0.5)
  = Some (Vec4 0 0 0 1)
  /\ timeEvolution_main N g
       (initialSpectrum_main (phillipsSpectrum_main N u) uNoise) t (Vec2 0.5 0.5)
     = Some (Vec4 0 0 0 1).
Proof.
  intros Hn.
  assert (Hk : wave_vector N (Vec2 0.5 0.5) = Vec2 0 0).
  { unfold wave_vector. cbn [x2 y2].
    replace (0.5 - 0.5) with 0 by lra. f_equal; ring. }
  assert (Hp : phillipsSpectrum_main N u (Vec2 0.5 0.5) = Some (Vec4 0 0.0 0.0 1.0)).
  { unfold phillipsSpectrum_main. rewrite Hk. unfold phillips.
    rewrite length_zero.
    destruct (Rlt_dec 0 0.0001) as [_ | Hn0]; [| lra].
    cbn [mbind option_bind]. do 2 f_equal. lra. }
  assert (Hi : initialSpectrum_main (phillipsSpectrum_main N u) uNoise (Vec2 0.5 0.5)
               = Some (Vec4 0 0 0 1)).
  { rewrite (initialSpectrum_eval _ _ _ _ noise Hp Hn) by (cbn; lra).
    cbn [x4]. replace (0 / 2) with 0 by lra. rewrite sqrt_0.
    do 2 f_equal; ring. }
  split; [exact Hi |].
  unfold timeEvolution_main, texture2D at 1. rewrite Hi.
  cbn [mbind option_bind]. rewrite Hk, length_zero.
  rewrite fsqrt_Some by lra. cbn [mbind option_bind xy x2 y2 x4 y4].
  do 2 f_equal; lra.
Qed.

Lemma pipeline_DC_is_zero_witness :
  initialSpectrum_main
    (phillipsSpectrum_main RESOLUTION (phillipsSpectrumShader_uniforms config))
    (fun _ => Some (Vec4 3 4 0 1)) (Vec2 0.5 0.5)
  = Some (Vec4 0 0 0 1).
Proof.
  apply (pipeline_DC_is_zero RESOLUTION (phillipsSpectrumShader_uniforms config)
           GRAVITY 0 (fun _ => Some (Vec4 3 4 0 1)) (Vec4 3 4 0 1)).
  reflexivity.
Defined.

(** X9. The three programs compose without an undefined value: under a
    non-negative alpha, a non-zero wind, positive gravity in the uniforms
    and a non-negative gravity constant, at every texel where the noise
    texture is defined the time evolution of the initial spectrum of the
    Phillips texture is [sqrt(P/2) * (n_x, n_y) * cos(w t)], with [P] the
    value of [phillips] there, and its components are bounded by those of
    the noise scaled by [sqrt(P/2)]. *)
Theorem pipeline_defined (N : Z) (u : PhillipsUniforms) (g t : R)
    (uNoise : sampler2D) (vUv : vec2) (noise : vec4) :
  0 <= uAlpha u ->
  0 < uWindSpeed u ->
  0 < uGravity u ->
  0 <= g ->
  texture2D uNoise vUv = Some noise ->
  exists P : R,
    phillips u (wave_vector N vUv) = Some P
    /\ 0 <= P
    /\ let w := sqrt (g * length (wave_vector N vUv)) in
       timeEvolution_main N g
         (initialSpectrum_main (phillipsSpectrum_main N u) uNoise) t vUv
       = Some (Vec4 (sqrt (P / 2) * x4 noise * cos (w * t))
                    (sqrt (P / 2) * y4 noise * cos (w * t)) 0 1).
Proof.
  intros Ha Hw Hgu Hg Hn.
  destruct (initialSpectrum_on_phillips N u uNoise vUv noise Ha Hw Hgu Hn)
    as (P & HP & Hi).
  exists P. split; [exact HP |]. split.
  - destruct (Rlt_dec (length (wave_vector N vUv)) 0.0001) as [Hk | Hk].
    + unfold phillips in HP.
      destruct (Rlt_dec (length (wave_vector N vUv)) 0.0001); [| contradiction].
      injection HP as <-. lra.
    + rewrite (phillips_away u Hw Hgu _ Hk) in HP. injection HP as <-.
      apply phillips_value_nonneg; try assumption. lra.
  - cbv zeta.
    rewrite (timeEvolution_eval N g _ t vUv _ Hg Hi). cbn [x4 y4]. reflexivity.
Qed.

Lemma pipeline_defined_witness :
  exists P : R,
    phillips (phillipsSpectrumShader_uniforms config)
      (wave_vector RESOLUTION (Vec2 1 1)) = Some P
    /\ 0 <= P.
Proof.
  destruct (pipeline_defined RESOLUTION (phillipsSpectrumShader_uniforms config)
              GRAVITY 0 (fun _ => Some (Vec4 3 4 0 1)) (Vec2 1 1) (Vec4 3 4 0 1))
    as (P & HP & Hpos & _).
  - cbn. lra.
  - cbn. unfold WIND_SPEED. lra.
  - cbn. unfold GRAVITY. lra.
  - unfold GRAVITY. lra.
  - reflexivity.
  - exists P. split; assumption.
Defined.

End Evolution.

(** ** The frames of the spectral pipeline *)

Section SpectralMore.

Variable c : Config.

Lemma spectral_inv_Ocean : spectral_inv c (Ocean c fresh).
Proof.
  unfold spectral_inv. split; [apply App_wf_Ocean |].
  cbn. repeat split; auto.
Qed.

Lemma spectral_inv_mount (s : State) : spectral_inv c s -> spectral_inv c (mount s).
Proof.
  intros (W & H). split; [now apply App_wf_mount | exact H].
Qed.

Lemma spectral_inv_DebugView_useFrame (tex : Texture) (s : State) :
  spectral_inv c s -> spectral_inv c (DebugView_useFrame tex s).
Proof.
  intros (W & Ht & Hc & Hn & Hd).
  split; [now apply App_wf_DebugView_useFrame |].
  destruct (DebugView_useFrame_pipeline tex s) as (-> & _ & _ & -> & _).
  auto.
Qed.

Lemma spectral_inv_useFrame (t : R) (s : State) :
  spectral_inv c s -> spectral_inv c (Ocean_useFrame c t s).
Proof.
  intros (W & Ht & Hc & Hn & Hd).
  pose proof W as (_ & _ & Hf & Hm).
  split; [now apply App_wf_useFrame |].
  split.
  { rewrite App_useFrame_gl. cbn [targets]. rewrite Hf, Ht. reflexivity. }
  split.
  - rewrite App_useFrame_gl. cbn [calls]. rewrite Hf. cbn [fbo_phillips].
    apply Forall_app. split; [assumption |]. constructor; auto.
  - rewrite App_useFrame_ocean, Hf. cbn [fbo_phillips].
    destruct (meshRef s); cbn [uNormalMap uDisplacement]; auto.
Qed.

Lemma spectral_inv_DebugView_draw (s : State) :
  spectral_inv c s ->
  spectral_inv c (DebugView_draw s)
  /\ targets (gl (DebugView_draw s)) = targets (gl s).
Proof.
  intros (W & Ht & Hc & Hn & Hd).
  pose proof W as (Hcur & _).
  destruct (DebugView_draw_pipeline s Hcur) as (Et & _ & _ & _ & Eo & _).
  split; [| exact Et].
  split; [now apply App_wf_DebugView_draw |].
  rewrite Et, Eo. repeat split; try assumption.
  unfold DebugView_draw. destruct (debug_meshRef s); [| assumption].
  cbn [gl with_gl]. unfold render. rewrite Hcur. cbn [calls].
  apply Forall_app. split; [assumption |]. constructor; auto.
Qed.

Lemma spectral_inv_frame (t : R) (s : State) :
  spectral_inv c s -> spectral_inv c (frame c t s).
Proof.
  intros H. unfold frame.
  apply (spectral_inv_DebugView_useFrame (fbo_phillips (fbos s))) in H.
  apply (spectral_inv_useFrame t) in H.
  now apply spectral_inv_DebugView_draw in H.
Qed.

Lemma reachable_spectral_inv (s : State) : reachable c s -> spectral_inv c s.
Proof.
  induction 1.
  - apply spectral_inv_Ocean.
  - now apply spectral_inv_mount.
  - now apply spectral_inv_frame.
Qed.

(** X10. The spectral pipeline never renders into, and never binds, what
    its later stages would need: in every state the application reaches,
    the initial-spectrum, spectrum, displacement, normals and both
    ping-pong targets still hold the texels they were created with, every
    render call so far went to the Phillips target or to the canvas, the
    sampler inputs of the initial-spectrum and time-evolution materials
    and the normal map of the ocean material are unbound, and the
    time-evolution material's [uTime] is still 0. *)
Theorem spectral_later_stages_untouched (s : State) :
  reachable c s ->
  (forall i : TargetRef,
     In i [fbo_initialSpectrum (fbos s); fbo_spectrum (fbos s);
           fbo_displacement (fbos s); fbo_normals (fbos s);
           fbo_pingPong (fbos s) !!! 0%nat; fbo_pingPong (fbos s) !!! 1%nat] ->
     i <> fbo_phillips (fbos s) /\ sample (gl s) (Some i) = cleared)
  /\ Forall (fun call => call = Some (fbo_phillips (fbos s)) \/ call = None)
       (calls (gl s))
  /\ uPhillips (mat_initialSpectrum (materials s)) = None
  /\ uNoise (mat_initialSpectrum (materials s)) = None
  /\ uInitialSpectrum (mat_timeEvolution (materials s)) = None
  /\ uTime (mat_timeEvolution (materials s)) = 0
  /\ uNormalMap (ocean_uniforms s) = None.
Proof.
  intros Hs. destruct (reachable_spectral_inv s Hs) as (W & Ht & Hc & Hn & _).
  destruct W as (_ & _ & Hf & Hm). rewrite Hf, Hm.
  cbn [fbo_initialSpectrum fbo_spectrum fbo_displacement fbo_normals
         fbo_pingPong fbo_phillips].
  split; [| repeat split; assumption].
  intros i Hi. unfold sample. rewrite Ht.
  cbn in Hi; destruct Hi as [<- | [<- | [<- | [<- | [<- | [<- | []]]]]]];
    (split; [lia | reflexivity]).
Qed.

End SpectralMore.

Lemma spectral_later_stages_untouched_witness :
  uNormalMap (ocean_uniforms (frame config 1 (mount (Ocean config fresh)))) = None.
Proof.
  destruct (spectral_later_stages_untouched config
              (frame config 1 (mount (Ocean config fresh)))
              (reachable_frame config _ 1
                 (reachable_mount config _ (reachable_Ocean config))))
    as (_ & _ & _ & _ & _ & _ & H).
  exact H.
Defined.

(** X11. The render targets do not depend on the frame: after any frame,
    at any elapsed time and from any state the application reaches, the
    renderer holds the same seven render targets with the same texels,
    those they were created with.  The Phillips program does not compile,
    so the Phillips pass clears its target and draws nothing: every texel
    of the Phillips target reads [(0, 0, 0, 0)]. *)
Theorem phillips_texture_static (c : Config) (s1 s2 : State) (t1 t2 : R)
    (vUv : vec2) :
  reachable c s1 ->
  reachable c s2 ->
  targets (gl (frame c t1 s1)) = targets (gl (frame c t2 s2))
  /\ targets (gl (frame c t1 s1)) = targets (gl (Ocean c fresh))
  /\ sample (gl (frame c t1 s1)) (Some (fbo_phillips (fbos s1))) vUv
     = Some (Vec4 0 0 0 0).
Proof.
  intros H1 H2.
  pose proof (reachable_spectral_inv c s1 H1) as I1.
  pose proof (reachable_spectral_inv c s2 H2) as I2.
  destruct (spectral_inv_frame c t1 s1 I1) as (_ & E1 & _).
  destruct (spectral_inv_frame c t2 s2 I2) as (_ & E2 & _).
  destruct (spectral_inv_Ocean c) as (_ & E0 & _).
  split; [now rewrite E1, E2 |].
  split; [now rewrite E1, E0 |].
  destruct I1 as ((_ & _ & Hf & _) & _).
  unfold sample. rewrite E1, Hf. reflexivity.
Qed.

Lemma phillips_texture_static_witness :
  targets (gl (frame config 1 (mount (Ocean config fresh))))
  = targets (gl (frame config 2 (frame config 1 (mount (Ocean config fresh))))).
Proof.
  exact (proj1 (phillips_texture_static config (mount (Ocean config fresh))
                  (frame config 1 (mount (Ocean config fresh))) 1 2 (Vec2 0 0)
                  (reachable_mount config _ (reachable_Ocean config))
                  (reachable_frame config _ 1
                     (reachable_mount config _ (reachable_Ocean config))))).
Defined.

(** ** The ocean material of the spectral pipeline *)

Section OceanMaterial.

Lemma length3_ones : length3 (Vec3 1.0 1.0 1.0) = sqrt 3.
Proof. unfold length3, dot3. cbn [x3 y3 z3]. f_equal. lra. Qed.

Lemma sqrt3_pos : 0 < sqrt 3.
Proof. apply sqrt_lt_R0. lra. Qed.

(** The light direction [normalize(vec3(1.0))]. *)
Lemma light_direction :
  normalize3 (Vec3 1.0 1.0 1.0)
  = Some (Vec3 (1.0 / sqrt 3) (1.0 / sqrt 3) (1.0 / sqrt 3)).
Proof.
  pose proof sqrt3_pos. unfold normalize3. rewrite length3_ones.
  rewrite !fdiv_Some by lra. reflexivity.
Qed.

Lemma oceanMaterial_fragment_eval (uNormalMap : sampler2D) (vUv : vec2) (n : vec4) :
  texture2D uNormalMap vUv = Some n ->
  let diffuse :=
    Rmax 0 (dot3 (xyz n) (Vec3 (1.0 / sqrt 3) (1.0 / sqrt 3) (1.0 / sqrt 3))) in
  oceanMaterial_fragment uNormalMap vUv
  = Some (Vec4 (mix 0.1 0.3 diffuse) (mix 0.1 0.3 diffuse) (mix 0.3 0.5 diffuse) 1).
Proof.
  intros Hn diffuse. unfold oceanMaterial_fragment. rewrite Hn.
  cbn [mbind option_bind]. rewrite light_direction. cbn [mbind option_bind].
  unfold mix3, max. cbn [x3 y3 z3]. subst diffuse.
  replace 0.0 with 0 by lra. replace 1.0 with 1 by lra. reflexivity.
Qed.

(** X12. The ocean is drawn in one flat colour: the frame callback never
    sets [uNormalMap], so in every state the application reaches the
    fragment program of the ocean material reads zeros as the normal,
    the diffuse term is 0 and every fragment gets the dark colour
    [(0.1, 0.1, 0.3, 1)]. *)
Theorem ocean_fragment_flat (c : Config) (s : State) (vUv : vec2) :
  reachable c s ->
  oceanMaterial_fragment (sample (gl s) (uNormalMap (ocean_uniforms s))) vUv
  = Some (Vec4 0.1 0.1 0.3 1).
Proof.
  intros Hs. destruct (reachable_spectral_inv c s Hs) as (_ & _ & _ & -> & _).
  rewrite (oceanMaterial_fragment_eval _ _ (Vec4 0 0 0 0)) by reflexivity.
  cbv zeta. unfold dot3, xyz. cbn [x3 y3 z3 x4 y4 z4].
  replace (0 * (1.0 / sqrt 3) + 0 * (1.0 / sqrt 3) + 0 * (1.0 / sqrt 3)) with 0
    by ring.
  rewrite Rmax_left by lra. unfold mix. do 2 f_equal; lra.
Qed.

Lemma ocean_fragment_flat_witness :
  oceanMaterial_fragment
    (sample (gl (frame config 1 (mount (Ocean config fresh))))
       (uNormalMap (ocean_uniforms (frame config 1 (mount (Ocean config fresh))))))
    (Vec2 0 0)
  = Some (Vec4 0.1 0.1 0.3 1).
Proof.
  exact (ocean_fragment_flat config (frame config 1 (mount (Ocean config fresh)))
           (Vec2 0 0)
           (reachable_frame config _ 1
              (reachable_mount config _ (reachable_Ocean config)))).
Defined.

(** The diffuse term of a normal of length at most 1 lies in [0, 1]. *)
Lemma diffuse_range (n : vec3) :
  dot3 n n <= 1 ->
  0 <= Rmax 0 (dot3 n (Vec3 (1.0 / sqrt 3) (1.0 / sqrt 3) (1.0 / sqrt 3))) <= 1.
Proof.
  intros Hn. split; [apply Rmax_l |].
  apply Rmax_lub; [lra |].
  pose proof sqrt3_pos as H3.
  assert (Hs : sqrt 3 * sqrt 3 = 3) by (apply sqrt_sqrt; lra).
  unfold dot3 in *. cbn [x3 y3 z3] in *.
  set (l := 1.0 / sqrt 3).
  assert (Hl : l * l = / 3).
  { subst l. replace 1.0 with 1 by lra.
    replace (1 / sqrt 3 * (1 / sqrt 3)) with (/ (sqrt 3 * sqrt 3))
      by (field; lra).
    now rewrite Hs. }
  clearbody l.
  set (a := x3 n) in *. set (b := y3 n) in *. set (d := z3 n) in *.
  clearbody a b d.
  (* (a + b + d)^2 <= 3 (a^2 + b^2 + d^2) *)
  pose proof (Rle_0_sqr (a - b)) as Q1. pose proof (Rle_0_sqr (b - d)) as Q2.
  pose proof (Rle_0_sqr (a - d)) as Q3. unfold Rsqr in *.
  assert (Hsum : (a + b + d) * (a + b + d) <= 3) by nra.
  assert (Hsq : (a * l + b * l + d * l) * (a * l + b * l + d * l) <= 1).
  { replace ((a * l + b * l + d * l) * (a * l + b * l + d * l))
      with ((a + b + d) * (a + b + d) * (l * l)) by ring.
    rewrite Hl. lra. }
  nra.
Qed.

(** X13. For any normal map the ocean fragment colour is opaque and never
    darker than [(0.1, 0.1, 0.3)]; where the sampled normal has length at
    most 1 it is never brighter than [(0.3, 0.3, 0.5)]. *)
Theorem ocean_fragment_range (uNormalMap : sampler2D) (vUv : vec2) (n : vec4) :
  texture2D uNormalMap vUv = Some n ->
  exists col : vec4,
    oceanMaterial_fragment uNormalMap vUv = Some col
    /\ w4 col = 1
    /\ 0.1 <= x4 col /\ 0.1 <= y4 col /\ 0.3 <= z4 col
    /\ (dot3 (xyz n) (xyz n) <= 1 ->
        x4 col <= 0.3 /\ y4 col <= 0.3 /\ z4 col <= 0.5).
Proof.
  intros Hn. pose proof (oceanMaterial_fragment_eval _ _ _ Hn) as E.
  cbv zeta in E. eexists. split; [exact E |].
  cbn [x4 y4 z4 w4].
  set (d := Rmax 0 _).
  assert (Hd : 0 <= d) by (subst d; apply Rmax_l).
  unfold mix. split; [reflexivity |].
  split; [nra |]. split; [nra |]. split; [nra |].
  intros Hlen. pose proof (diffuse_range (xyz n) Hlen) as Hr. fold d in Hr.
  repeat split; nra.
Qed.

Lemma ocean_fragment_range_witness :
  exists col : vec4,
    oceanMaterial_fragment (fun _ => Some (Vec4 0 0 1 1)) (Vec2 0 0) = Some col
    /\ w4 col = 1.
Proof.
  destruct (ocean_fragment_range (fun _ => Some (Vec4 0 0 1 1)) (Vec2 0 0)
              (Vec4 0 0 1 1) eq_refl) as (col & H & Hw & _).
  exists col. split; assumption.
Defined.

(** X14. The ocean surface is never displaced: in every state the
    application reaches the texture bound as displacement reads 0 (no
    texture before the first frame, the cleared Phillips target after
    it), so the vertex program leaves every vertex where the geometry has
    it, whatever its normal is, and its [gl_Position] is the projection of
    that point. *)
Theorem ocean_vertex_undisplaced (c : Config) (s : State)
    (projectionMatrix modelViewMatrix : mat4) (position normal : vec3) (uv : vec2) :
  reachable c s ->
  oceanMaterial_newPosition (sample (gl s) (uDisplacement (ocean_uniforms s)))
    position normal uv
  = Some position
  /\ oceanMaterial_vertex projectionMatrix modelViewMatrix
       (sample (gl s) (uDisplacement (ocean_uniforms s))) position normal uv
     = Some {| sv_Position :=
                 mat4_vec (mat4_mul projectionMatrix modelViewMatrix)
                   (Vec4 (x3 position) (y3 position) (z3 position) 1);
               sv_vUv := uv |}.
Proof.
  intros Hs.
  destruct (reachable_spectral_inv c s Hs) as (_ & Ht & _ & _ & Hd).
  assert (Hsample : sample (gl s) (uDisplacement (ocean_uniforms s)) uv
                    = Some (Vec4 0 0 0 0)).
  { destruct Hd as [-> | ->]; [reflexivity |].
    unfold sample. rewrite Ht. reflexivity. }
  assert (Hnew : oceanMaterial_newPosition
                   (sample (gl s) (uDisplacement (ocean_uniforms s)))
                   position normal uv
                 = Some position).
  { unfold oceanMaterial_newPosition, texture2D.
    rewrite Hsample. cbn [mbind option_bind x4].
    destruct position as [px py pz]. cbn [x3 y3 z3].
    do 2 f_equal; ring. }
  split; [exact Hnew |].
  unfold oceanMaterial_vertex. rewrite Hnew. cbn [mbind option_bind].
  replace 1.0 with 1 by lra. reflexivity.
Qed.

Lemma ocean_vertex_undisplaced_witness :
  oceanMaterial_newPosition
    (sample (gl (frame config 1 (mount (Ocean config fresh))))
       (uDisplacement (ocean_uniforms (frame config 1 (mount (Ocean config fresh))))))
    (Vec3 1 2 0) (Vec3 0 0 1) (Vec2 0.5 0.5)
  = Some (Vec3 1 2 0).
Proof.
  exact (proj1 (ocean_vertex_undisplaced config
                  (frame config 1 (mount (Ocean config fresh)))
                  (Mat4 (Vec4 1 0 0 0) (Vec4 0 1 0 0) (Vec4 0 0 1 0) (Vec4 0 0 0 1))
                  (Mat4 (Vec4 1 0 0 0) (Vec4 0 1 0 0) (Vec4 0 0 1 0) (Vec4 0 0 0 1))
                  (Vec3 1 2 0) (Vec3 0 0 1) (Vec2 0.5 0.5)
                  (reachable_frame config _ 1
                     (reachable_mount config _ (reachable_Ocean config))))).
Defined.

End OceanMaterial.

(** ** [Ocean.jsx]: the noise function *)

Section NoiseBound.

Import OceanJsx.

Lemma floor_range (x : R) : floor x <= x < floor x + 1.
Proof.
  unfold floor. destruct (base_Int_part x) as (H1 & H2). split; lra.
Qed.

Lemma fract_range (x : R) : 0 <= fract x < 1.
Proof. unfold fract. pose proof (floor_range x). lra. Qed.

(** On an integer [mod289] is the remainder of the division by 289. *)
Lemma mod289_IZR (n : Z) : mod289_scalar (IZR n) = IZR (n mod 289).
Proof.
  unfold mod289_scalar.
  assert (E : floor (IZR n * (1.0 / 289.0)) = IZR (n / 289)).
  { unfold floor. f_equal. symmetry. apply Int_part_spec.
    pose proof (Z.div_mod n 289 ltac:(lia)) as Hd.
    pose proof (Z.mod_pos_bound n 289 ltac:(lia)) as Hm.
    assert (Hn : IZR n = 289 * IZR (n / 289) + IZR (n mod 289)).
    { rewrite Hd at 1. rewrite plus_IZR, mult_IZR. reflexivity. }
    assert (H0 : 0 <= IZR (n mod 289)) by (apply IZR_le; lia).
    assert (H1 : IZR (n mod 289) < 289) by (apply IZR_lt; lia).
    split; lra. }
  rewrite E.
  pose proof (Z.div_mod n 289 ltac:(lia)) as Hd.
  assert (Hn : IZR n = 289 * IZR (n / 289) + IZR (n mod 289)).
  { rewrite Hd at 1. rewrite plus_IZR, mult_IZR. reflexivity. }
  lra.
Qed.

Lemma permute_IZR (a : Z) :
  mod289_scalar ((IZR a * 34.0 + 1.0) * IZR a) = IZR (permute_Z a).
Proof.
  unfold permute_Z. rewrite <- mod289_IZR. f_equal.
  rewrite mult_IZR, plus_IZR, mult_IZR. lra.
Qed.

(** [permute_Z] takes different residues to different residues. *)
Lemma permute_Z_injective (a b : Z) :
  (0 <= a < 289)%Z -> (0 <= b < 289)%Z -> permute_Z a = permute_Z b -> a = b.
Proof.
  intros Ha Hb E.
  assert (T : forallb (fun i : nat =>
                forallb (fun j : nat =>
                  implb (permute_Z (Z.of_nat i) =? permute_Z (Z.of_nat j))%Z
                        (i =? j)%nat)
                  (seq 0 289)) (seq 0 289) = true)
    by (vm_compute; reflexivity).
  rewrite forallb_forall in T.
  specialize (T (Z.to_nat a)). rewrite forallb_forall in T.
  assert (Ia : In (Z.to_nat a) (seq 0 289)) by (apply in_seq; lia).
  assert (Ib : In (Z.to_nat b) (seq 0 289)) by (apply in_seq; lia).
  specialize (T Ia (Z.to_nat b) Ib).
  rewrite !Z2Nat.id in T by lia.
  rewrite E, Z.eqb_refl in T. cbn [implb] in T.
  apply Nat.eqb_eq in T. lia.
Qed.

(** X15. On the integers the noise function hands to it, those from 0 to
    579, [permute] is the arithmetic modulo 289 of the source: each
    component is the remainder of [(34 x + 1) x] by 289, an integer from 0
    to 288, and different residues go to different residues. *)
Theorem permute_on_integers (a b c : Z) :
  (0 <= a < 580)%Z ->
  (0 <= b < 580)%Z ->
  (0 <= c < 580)%Z ->
  permute_vec3 (Vec3 (IZR a) (IZR b) (IZR c))
  = Vec3 (IZR (permute_Z a)) (IZR (permute_Z b)) (IZR (permute_Z c))
  /\ (0 <= permute_Z a < 289)%Z
  /\ (a < 289 -> b < 289 -> permute_Z a = permute_Z b -> a = b)%Z.
Proof.
  intros Ha Hb Hc. split; [| split].
  - unfold permute_vec3, mod289_vec3, map3, zip3. cbn [x3 y3 z3].
    rewrite !permute_IZR. reflexivity.
  - unfold permute_Z. apply Z.mod_pos_bound. lia.
  - intros Ha' Hb'. apply permute_Z_injective; lia.
Qed.

Lemma permute_on_integers_witness :
  permute_vec3 (Vec3 1 100 577) = Vec3 35 236 33.
Proof.
  exact (proj1 (permute_on_integers 1 100 577
                  ltac:(lia) ltac:(lia) ltac:(lia))).
Defined.

Lemma corner_bound (d a h X Y : R) :
  d = X * X + Y * Y ->
  -0.5 <= a <= 0.5 ->
  -0.5 <= h <= 0.5 ->
  let t := max (0.5 - d) 0.0 in
  Rabs (t * t * (t * t) * (1.79284291400159 - 0.85373472095314 * (a * a + h * h))
        * (a * X + h * Y))
  <= 0.0561.
Proof.
  intros Hd Ha Hh t.
  assert (Ht : 0 <= t <= 0.5 /\ (t = 0 \/ d < 0.5)).
  { subst t. unfold max. replace 0.0 with 0 by lra.
    assert (0 <= d) by nra.
    destruct (Rle_dec (0.5 - d) 0) as [Hle | Hgt].
    - rewrite Rmax_right by assumption. split; [lra | now left].
    - rewrite Rmax_left by lra. split; [lra | right; lra]. }
  clearbody t. destruct Ht as (Ht & [Ht0 | Hd5]).
  - subst t. replace (0 * 0 * (0 * 0) * _ * _) with 0 by ring.
    rewrite Rabs_R0. lra.
  - set (f := 1.79284291400159 - 0.85373472095314 * (a * a + h * h)).
    set (g := a * X + h * Y).
    assert (Hs : 0 <= a * a + h * h <= 0.5) by nra.
    assert (Hf : 0 <= f <= 1.79284291400159) by (subst f; nra).
    assert (Hg2 : g * g <= 0.25).
    { subst g. pose proof (Rle_0_sqr (a * Y - h * X)) as Q. unfold Rsqr in Q.
      assert (E : (a * X + h * Y) * (a * X + h * Y)
                  = (a * a + h * h) * (X * X + Y * Y)
                    - (a * Y - h * X) * (a * Y - h * X)) by ring.
      rewrite E, <- Hd. assert (0 <= d) by nra. nra. }
    assert (Hg : Rabs g <= 0.5).
    { apply Rabs_le. split; nra. }
    assert (Ht4 : 0 <= t * t * (t * t) <= 0.0625).
    { assert (0 <= t * t <= 0.25) by nra. nra. }
    clearbody f g.
    pose proof (Rabs_pos g) as Hg0.
    assert (Hu : t * t * (t * t) * f <= 0.0625 * 1.79284291400159) by nra.
    assert (Hl : 0 <= t * t * (t * t) * f) by nra.
    rewrite Rabs_mult.
    rewrite (Rabs_right (t * t * (t * t) * f)) by lra.
    nra.
Qed.

(** The gradient components derived from a hash value. *)
Lemma gradient_range (q : R) :
  let x := 2.0 * fract q - 1.0 in
  -0.5 <= x - floor (x + 0.5) <= 0.5 /\ -0.5 <= abs x - 0.5 <= 0.5.
Proof.
  intros x. pose proof (fract_range q) as Hq.
  pose proof (floor_range (x + 0.5)) as Hf.
  assert (Hx : -1 <= x < 1) by (subst x; lra).
  clearbody x. split; [lra |].
  unfold abs. unfold Rabs. destruct (Rcase_abs x); lra.
Qed.

Lemma snoise_tail_bound (x0 : vec2) (x12 : vec4) (p : vec3) :
  Rabs (snoise_tail x0 x12 p) <= 22.
Proof.
  unfold snoise_tail. cbv zeta.
  cbn [map3 zip3 dot3 x3 y3 z3].
  destruct (gradient_range (x3 p * w4 C)) as (Ha0 & Hh0).
  destruct (gradient_range (y3 p * w4 C)) as (Ha1 & Hh1).
  destruct (gradient_range (z3 p * w4 C)) as (Ha2 & Hh2).
  cbv zeta in Ha0, Hh0, Ha1, Hh1, Ha2, Hh2.
  pose proof (corner_bound (dot x0 x0) _ _ (x2 x0) (y2 x0) eq_refl Ha0 Hh0) as B0.
  pose proof (corner_bound (dot (xy x12) (xy x12)) _ _ (x4 x12) (y4 x12)
                eq_refl Ha1 Hh1) as B1.
  pose proof (corner_bound (dot (zw x12) (zw x12)) _ _ (z4 x12) (w4 x12)
                eq_refl Ha2 Hh2) as B2.
  cbv zeta in B0, B1, B2.
  rewrite Rabs_mult. rewrite (Rabs_right 130.0) by lra.
  eapply Rle_trans.
  - apply Rmult_le_compat_l; [lra |].
    eapply Rle_trans; [apply Rabs_triang |].
    apply Rplus_le_compat; [| exact B2].
    eapply Rle_trans; [apply Rabs_triang |].
    apply Rplus_le_compat; [exact B0 | exact B1].
  - lra.
Qed.

Lemma snoise_as_tail (v : vec2) :
  exists (x0 : vec2) (x12 : vec4) (p : vec3), snoise v = snoise_tail x0 x12 p.
Proof.
  unfold snoise. cbv zeta. do 3 eexists. unfold snoise_tail. cbv zeta.
  reflexivity.
Qed.

Lemma snoise_bound (v : vec2) : Rabs (snoise v) <= 22.
Proof.
  destruct (snoise_as_tail v) as (x0 & x12 & p & ->).
  apply snoise_tail_bound.
Qed.

Lemma heightmap_bounded (t : R) (vUv : vec2) :
  exists h : R, heightmap t vUv = Vec4 h 0 0 1 /\ Rabs h <= 22.
Proof.
  unfold heightmap. eexists. split; [reflexivity |].
  rewrite Rabs_mult. rewrite (Rabs_right 0.5) by lra.
  pose proof (snoise_bound (Vec2 (x2 vUv * 2.6 + t * 0.1) (y2 vUv * 2.6 + t * 0.1))).
  pose proof (snoise_bound (Vec2 (x2 vUv * 2.9 - t * 0.15) (y2 vUv * 2.9 - t * 0.15))).
  pose proof (Rabs_triang
                (snoise (Vec2 (x2 vUv * 2.6 + t * 0.1) (y2 vUv * 2.6 + t * 0.1)))
                (snoise (Vec2 (x2 vUv * 2.9 - t * 0.15) (y2 vUv * 2.9 - t * 0.15)))).
  lra.
Qed.

(** X16. The noise is bounded: [|snoise(v)| <= 22] for every [v], so the
    height the simulation pass writes is at most 22 in absolute value at
    every texel and every time, whatever the previous state holds. *)
Theorem snoise_bounded (v : vec2) (t : R) (prev : sampler2D) (vUv : vec2) :
  Rabs (snoise v) <= 22
  /\ exists height : R,
       simMaterial_main t prev vUv = Some (Vec4 height 0 0 1)
       /\ Rabs height <= 22.
Proof.
  split; [apply snoise_bound |].
  rewrite simMaterial_main_heightmap.
  destruct (heightmap_bounded t vUv) as (h & -> & Hb).
  exists h. split; [reflexivity | exact Hb].
Qed.

End NoiseBound.

(** ** Unmounting the spectral pipeline *)

(** X17. Unmounting leaks no render target and disposes none twice: in
    every state the application reaches, the cleanup calls [dispose()] on
    each of the seven render targets the renderer holds exactly once (the
    two ping-pong targets through the array branch), in the order of
    their creation. *)
Theorem cleanup_disposes_each_target_once (c : Config) (s : State) :
  reachable c s ->
  dispose_fbos (fbos s) = seq 0 (List.length (targets (gl s)))
  /\ NoDup (dispose_fbos (fbos s))
  /\ (forall i : TargetRef,
        In i (dispose_fbos (fbos s)) <-> is_Some (targets (gl s) !! i)).
Proof.
  intros Hs. destruct (App_reachable_wf c s Hs) as (_ & Hl & Hf & _).
  assert (E : dispose_fbos (fbos s) = seq 0 (List.length (targets (gl s)))).
  { rewrite Hl, Hf. reflexivity. }
  split; [exact E |]. rewrite E. split.
  - apply NoDup_ListNoDup, seq_NoDup.
  - intros i. rewrite in_seq, lookup_lt_is_Some. lia.
Qed.

Lemma cleanup_disposes_each_target_once_witness :
  NoDup (dispose_fbos (fbos (Ocean config fresh))).
Proof.
  exact (proj1 (proj2 (cleanup_disposes_each_target_once config
                         (Ocean config fresh) (reachable_Ocean config)))).
Defined.

(** ** The debug view of the spectral pipeline *)

(** X18. The debug view of the spectral pipeline is mid-grey: once the
    meshes are mounted, the debug material is bound to the texture of the
    Phillips target and the debug quad drawn at the end of a frame
    samples it as that same frame left it, cleared, so that its colour,
    mapped by [x * 0.5 + 0.5], is [(0.5, 0.5, 0.5, 1)] everywhere. *)
Theorem spectral_debug_view_grey (c : Config) (s : State) (t : R) (vUv : vec2) :
  reachable c s ->
  debug_meshRef s = true ->
  uTexture (debug_uniforms (frame c t s)) = Some (fbo_phillips (fbos s))
  /\ canvas (gl (frame c t s)) vUv = Some (Vec4 0.5 0.5 0.5 1).
Proof.
  intros Hs Hm.
  pose proof (reachable_spectral_inv c s Hs) as I.
  pose proof I as ((_ & _ & Hf & _) & _).
  (* the state before the draw *)
  set (s1 := DebugView_useFrame (fbo_phillips (fbos s)) s).
  set (s2 := Ocean_useFrame c t s1).
  assert (I1 : spectral_inv c s1) by now apply spectral_inv_DebugView_useFrame.
  pose proof (spectral_inv_useFrame c t s1 I1) as I2.
  fold s2 in I2. destruct I2 as (_ & E2 & _).
  assert (Hd2 : debug_meshRef s2 = true
                /\ debug_uniforms s2 = {| uTexture := Some (fbo_phillips (fbos s)) |}).
  { subst s2. destruct (App_useFrame_kept c t s1) as (_ & _ & -> & _ & _ & ->).
    subst s1. unfold DebugView_useFrame. rewrite Hm. cbn. auto. }
  destruct Hd2 as (Hm2 & Hu2).
  assert (Hc2 : currentTarget (gl s2) = None) by apply App_useFrame_currentTarget.
  change (frame c t s) with (DebugView_draw s2).
  unfold DebugView_draw. rewrite Hm2. split.
  - cbn [debug_uniforms with_gl]. now rewrite Hu2.
  - cbn [gl with_gl].
    unfold render. rewrite Hc2. cbn [canvas]. rewrite Hu2. cbn [uTexture].
    unfold debugMaterial_main, texture2D, sample. rewrite E2, Hf.
    cbn [fbo_phillips].
    change (repeat (blank_target c) 7 !! 0%nat) with (Some (blank_target c)).
    cbn [texture blank_target]. unfold cleared.
    cbn [mbind option_bind xyz x3 y3 z3 x4 y4 z4].
    do 2 f_equal; lra.
Qed.

Lemma spectral_debug_view_grey_witness :
  canvas (gl (frame config 2 (frame config 1 (mount (Ocean config fresh))))) (Vec2 0 0)
  = Some (Vec4 0.5 0.5 0.5 1).
Proof.
  exact (proj2 (spectral_debug_view_grey config
                  (frame config 1 (mount (Ocean config fresh))) 2 (Vec2 0 0)
                  (reachable_frame config _ 1
                     (reachable_mount config _ (reachable_Ocean config)))
                  eq_refl)).
Defined.

(** ** [Ocean.jsx]: what is displayed *)

Section Displayed.

Import OceanJsx.

Lemma useFrame_ocean (t : R) (s : State) :
  ocean_uniforms (Ocean_useFrame t s)
  = if meshRef s
    then {| ocean_uTime := t;
            ocean_uHeightmap := Some (write (fbos s));
            uDepthColor := uDepthColor (ocean_uniforms s);
            uSurfaceColor := uSurfaceColor (ocean_uniforms s);
            uColorOffset := uColorOffset (ocean_uniforms s);
            uColorMultiplier := uColorMultiplier (ocean_uniforms s) |}
    else ocean_uniforms s.
Proof. unfold Ocean_useFrame. cbn. destruct (meshRef s); reflexivity. Qed.

Lemma frame_refs (t : R) (s : State) :
  meshRef (frame t s) = meshRef s /\ debugRef (frame t s) = debugRef s.
Proof.
  unfold frame.
  destruct (DebugPlane_draw_pipeline _ (useFrame_currentTarget t
              (DebugPlane_useFrame (heightmapFBO1 s) s)))
    as (_ & _ & _ & _ & _ & -> & -> & _).
  destruct (useFrame_debug t (DebugPlane_useFrame (heightmapFBO1 s) s))
    as (_ & -> & -> & _).
  destruct (DebugPlane_useFrame_pipeline (heightmapFBO1 s) s)
    as (_ & _ & _ & _ & -> & -> & _).
  split; reflexivity.
Qed.

Lemma frame_ocean (t : R) (s : State) :
  meshRef s = true ->
  ocean_uTime (ocean_uniforms (frame t s)) = t
  /\ ocean_uHeightmap (ocean_uniforms (frame t s)) = Some (write (fbos s)).
Proof.
  intros Hm. unfold frame.
  destruct (DebugPlane_draw_pipeline _ (useFrame_currentTarget t
              (DebugPlane_useFrame (heightmapFBO1 s) s)))
    as (_ & _ & _ & _ & -> & _).
  rewrite useFrame_ocean.
  destruct (DebugPlane_useFrame_pipeline (heightmapFBO1 s) s)
    as (_ & -> & _ & _ & -> & _).
  rewrite Hm. split; reflexivity.
Qed.

Lemma frame_canvas (t : R) (s : State) :
  debugRef s = true ->
  canvas (gl (frame t s))
  = debugMaterial_main (sample (gl (frame t s)) (Some (heightmapFBO1 s))).
Proof.
  intros Hd.
  assert (Et : targets (gl (frame t s))
               = targets (gl (Ocean_useFrame t (DebugPlane_useFrame (heightmapFBO1 s) s)))).
  { unfold frame.
    now destruct (DebugPlane_draw_pipeline _ (useFrame_currentTarget t
                    (DebugPlane_useFrame (heightmapFBO1 s) s))) as (-> & _). }
  unfold sample at 1. rewrite Et.
  set (s1 := DebugPlane_useFrame (heightmapFBO1 s) s).
  set (s2 := Ocean_useFrame t s1).
  assert (H2 : debugRef s2 = true
               /\ debug_uniforms s2 = {| uHeightmap := Some (heightmapFBO1 s) |}).
  { subst s2. destruct (useFrame_debug t s1) as (-> & -> & _).
    subst s1. unfold DebugPlane_useFrame. rewrite Hd. cbn. auto. }
  destruct H2 as (Hd2 & Hu2).
  assert (Hc2 : currentTarget (gl s2) = None) by apply useFrame_currentTarget.
  change (frame t s) with (DebugPlane_draw s2).
  unfold DebugPlane_draw. rewrite Hd2. cbn [gl with_gl].
  unfold render. rewrite Hc2. cbn [canvas]. rewrite Hu2. reflexivity.
Qed.

(** X19. The ocean always shows the newest heightmap: in a mounted state
    the application reaches, after a frame at elapsed time [t] the ocean
    material's [uTime] is [t] and its [uHeightmap] is the buffer the frame
    has just written, now in the read role.  The vertex program then
    places every vertex at world height [4 * h], whatever the height of
    the vertex in the mesh, where [h] is the noise height at [t] and the
    vertex's coordinate and [|h| <= 22], and hands [h] on as
    [vElevation]. *)
Theorem ocean_shows_newest_heightmap (s : State) (t : R)
    (projectionMatrix viewMatrix modelMatrix : mat4) (position : vec3) (uv : vec2) :
  reachable s ->
  meshRef s = true ->
  let s' := frame t s in
  ocean_uTime (ocean_uniforms s') = t
  /\ ocean_uHeightmap (ocean_uniforms s') = Some (read (fbos s'))
  /\ exists h : R,
       Rabs h <= 22
       /\ sample (gl s') (ocean_uHeightmap (ocean_uniforms s')) uv
          = Some (Vec4 h 0 0 1)
       /\ heightmap t uv = Vec4 h 0 0 1
       /\ heightmap_vertex projectionMatrix viewMatrix modelMatrix
            (sample (gl s') (ocean_uHeightmap (ocean_uniforms s'))) position uv
          = Some {| hv_Position :=
                      let mp := mat4_vec modelMatrix
                                  (Vec4 (x3 position) (y3 position) (z3 position) 1) in
                      mat4_vec projectionMatrix
                        (mat4_vec viewMatrix
                           (Vec4 (x4 mp) (h * 4) (z4 mp) (w4 mp)));
                    hv_vElevation := h |}.
Proof.
  intros Hs Hm s'. pose proof (reachable_wf s Hs) as W.
  destruct (frame_ocean t s Hm) as (Et & Eh). subst s'.
  rewrite Et, Eh, frame_fbos. cbn [read].
  split; [reflexivity |]. split; [reflexivity |].
  destruct (heightmap_bounded t uv) as (h & Hh & Hb).
  exists h. split; [exact Hb |].
  assert (Es : sample (gl (frame t s)) (Some (write (fbos s))) uv
               = Some (Vec4 h 0 0 1)).
  { rewrite frame_written by assumption. now rewrite Hh. }
  split; [exact Es |]. split; [exact Hh |].
  unfold heightmap_vertex, texture2D. rewrite Es.
  cbn [mbind option_bind]. unfold r4. cbn [x4].
  replace 1.0 with 1 by lra. replace 4.0 with 4 by lra. reflexivity.
Qed.

Lemma ocean_shows_newest_heightmap_witness :
  ocean_uTime (ocean_uniforms (frame 3 (mount (Ocean fresh)))) = 3.
Proof.
  exact (proj1 (ocean_shows_newest_heightmap (mount (Ocean fresh)) 3
                  (Mat4 (Vec4 1 0 0 0) (Vec4 0 1 0 0) (Vec4 0 0 1 0) (Vec4 0 0 0 1))
                  (Mat4 (Vec4 1 0 0 0) (Vec4 0 1 0 0) (Vec4 0 0 1 0) (Vec4 0 0 0 1))
                  (Mat4 (Vec4 1 0 0 0) (Vec4 0 1 0 0) (Vec4 0 0 1 0) (Vec4 0 0 0 1))
                  (Vec3 0 0 0) (Vec2 0 0)
                  (reachable_mount _ reachable_Ocean) eq_refl)).
Defined.

Lemma draw_debug_uniforms (s : State) :
  debug_uniforms (DebugPlane_draw s) = debug_uniforms s.
Proof. unfold DebugPlane_draw. destruct (debugRef s); reflexivity. Qed.

Lemma frame_debug_uniforms (t : R) (s : State) :
  debugRef s = true ->
  debug_uniforms (frame t s) = {| uHeightmap := Some (heightmapFBO1 s) |}.
Proof.
  intros Hd. unfold frame. rewrite draw_debug_uniforms.
  destruct (useFrame_debug t (DebugPlane_useFrame (heightmapFBO1 s) s)) as (-> & _).
  unfold DebugPlane_useFrame. rewrite Hd. reflexivity.
Qed.

Lemma frames_refs (clock : nat -> R) (n : nat) (s : State) :
  meshRef (frames clock n s) = meshRef s
  /\ debugRef (frames clock n s) = debugRef s
  /\ heightmapFBO1 (frames clock n s) = heightmapFBO1 s.
Proof.
  induction n as [| n (IH1 & IH2 & IH3)]; [auto |].
  rewrite frames_S.
  destruct (frame_refs (clock n) (frames clock n s)) as (-> & ->).
  destruct (frame_ids (clock n) (frames clock n s)) as (-> & _).
  auto.
Qed.

(** What the debug quad shows after a frame, in terms of the first
    target. *)
Lemma frame_debug_shown (t : R) (s : State) (vUv : vec2) (c : vec4) :
  debugRef s = true ->
  sample (gl (frame t s)) (Some (heightmapFBO1 s)) vUv = Some c ->
  canvas (gl (frame t s)) vUv = Some (Vec4 (x4 c) (x4 c) (x4 c) 1).
Proof.
  intros Hd Hc. rewrite frame_canvas by assumption.
  unfold debugMaterial_main, texture2D. rewrite Hc.
  cbn [mbind option_bind]. unfold r4. replace 1.0 with 1 by lra. reflexivity.
Qed.

(** X20. The debug plane runs one frame behind every second frame.  Its
    texture prop is read once, when the read buffer is [heightmapFBO1],
    and that target is written only by every second frame: after the
    first frame the quad is black; after frames [2k+2] and [2k+3] alike it
    shows, in grey, the heightmap of the frame with clock index [2k+1],
    while after frame [2k+3] the ocean itself uses the heightmap of clock
    index [2k+2]. *)
Theorem debug_plane_lags (clock : nat -> R) (k : nat) (vUv : vec2) :
  let s0 := mount (Ocean fresh) in
  let grey (c : vec4) := Some (Vec4 (x4 c) (x4 c) (x4 c) 1) in
  debug_uniforms (frames clock (S k) s0) = {| uHeightmap := Some (heightmapFBO1 s0) |}
  /\ canvas (gl (frames clock 1 s0)) vUv = Some (Vec4 0 0 0 1)
  /\ canvas (gl (frames clock (2 * k + 2) s0)) vUv
     = grey (heightmap (clock (2 * k + 1)%nat) vUv)
  /\ canvas (gl (frames clock (2 * k + 3) s0)) vUv
     = grey (heightmap (clock (2 * k + 1)%nat) vUv)
  /\ sample (gl (frames clock (2 * k + 3) s0))
       (ocean_uHeightmap (ocean_uniforms (frames clock (2 * k + 3) s0))) vUv
     = Some (heightmap (clock (2 * k + 2)%nat) vUv).
Proof.
  intros s0 grey.
  assert (R0 : reachable s0) by (apply reachable_mount, reachable_Ocean).
  assert (refs : forall n, meshRef (frames clock n s0) = true
                           /\ debugRef (frames clock n s0) = true
                           /\ heightmapFBO1 (frames clock n s0) = 0%nat).
  { intros n. destruct (frames_refs clock n s0) as (-> & -> & ->).
    repeat split; reflexivity. }
  assert (wfs : forall n, wf (frames clock n s0))
    by (intros n; apply reachable_wf; now apply reachable_frames).
  split; [| split].
  - rewrite frames_S. destruct (refs k) as (_ & Hd & H1).
    rewrite frame_debug_uniforms by assumption. now rewrite H1.
  - change (frames clock 1 s0) with (frame (clock 0%nat) s0).
    apply (frame_debug_shown _ _ _ (Vec4 0 0 0 0)); [reflexivity |].
    rewrite frame_kept; [reflexivity |].
    change (heightmapFBO1 s0) with 0%nat. change (write (fbos s0)) with 1%nat. lia.
  - (* the states around frames 2k, 2k+1, 2k+2 *)
    set (a := frames clock (2 * k) s0).
    assert (Fa : fbos a = fbos s0) by apply frames_two.
    replace (2 * k + 2)%nat with (S (S (2 * k))) by lia.
    replace (2 * k + 3)%nat with (S (S (S (2 * k)))) by lia.
    replace (2 * k + 1)%nat with (S (2 * k)) by lia.
    rewrite !frames_S. fold a.
    set (b := frame (clock (2 * k)%nat) a).
    set (c := frame (clock (S (2 * k))) b).
    assert (Wa : wf a) by apply wfs.
    assert (Wb : wf b) by now apply wf_frame.
    assert (Wc : wf c) by now apply wf_frame.
    assert (Fb : fbos b = {| read := 1%nat; write := 0%nat |}).
    { subst b. rewrite frame_fbos, Fa. reflexivity. }
    assert (Fc : fbos c = {| read := 0%nat; write := 1%nat |}).
    { subst c. rewrite frame_fbos, Fb. reflexivity. }
    assert (Ra : debugRef a = true /\ heightmapFBO1 a = 0%nat)
      by (destruct (refs (2 * k)%nat) as (_ & ? & ?); auto).
    destruct Ra as (Da & Ia).
    assert (Rb : meshRef b = true /\ debugRef b = true /\ heightmapFBO1 b = 0%nat).
    { subst b. destruct (frame_refs (clock (2 * k)%nat) a) as (-> & ->).
      destruct (frame_ids (clock (2 * k)%nat) a) as (-> & _).
      destruct (refs (2 * k)%nat) as (? & ? & ?). auto. }
    destruct Rb as (Mb & Db & Ib).
    assert (Rc : meshRef c = true /\ debugRef c = true /\ heightmapFBO1 c = 0%nat).
    { subst c. destruct (frame_refs (clock (S (2 * k))) b) as (-> & ->).
      destruct (frame_ids (clock (S (2 * k))) b) as (-> & _). auto. }
    destruct Rc as (Mc & Dc & Ic).
    (* frame 2k+1 writes the first target *)
    assert (Sc : sample (gl c) (Some 0%nat) vUv
                 = Some (heightmap (clock (S (2 * k))) vUv)).
    { subst c. replace 0%nat with (write (fbos b)) by now rewrite Fb.
      now apply frame_written. }
    split; [| split].
    + apply frame_debug_shown; [assumption |]. rewrite Ib. exact Sc.
    + apply frame_debug_shown; [assumption |]. rewrite Ic.
      rewrite frame_kept; [exact Sc |]. rewrite Fc. cbn. lia.
    + destruct (frame_ocean (clock (S (S (2 * k)))) c Mc) as (_ & ->).
      now apply frame_written.
Qed.

End Displayed.

(** ** The initial spectrum: energy and undefined inputs *)

(** X21. The initial spectrum carries the energy of the Phillips spectrum:
    at a texel with spectrum value [P >= 0] the squared magnitude of
    [h0] is [P/2] times the squared magnitude of the noise sample; a
    zero noise sample or a zero spectrum value gives [h0 = 0]. *)
Theorem initialSpectrum_energy (uPhillips uNoise : sampler2D) (vUv : vec2)
    (ph noise : vec4) :
  texture2D uPhillips vUv = Some ph ->
  texture2D uNoise vUv = Some noise ->
  0 <= x4 ph ->
  exists h0 : vec4,
    initialSpectrum_main uPhillips uNoise vUv = Some h0
    /\ x4 h0 * x4 h0 + y4 h0 * y4 h0
       = x4 ph / 2 * (x4 noise * x4 noise + y4 noise * y4 noise)
    /\ (x4 ph = 0 \/ (x4 noise = 0 /\ y4 noise = 0) -> x4 h0 = 0 /\ y4 h0 = 0).
Proof.
  intros Hp Hn Hpos.
  pose proof (initialSpectrum_eval _ _ _ _ _ Hp Hn Hpos) as Heval.
  eexists. split; [exact Heval |]. clear Heval.
  cbn [x4 y4].
  assert (Hs : sqrt (x4 ph / 2) * sqrt (x4 ph / 2) = x4 ph / 2)
    by (apply sqrt_sqrt; lra).
  set (r := sqrt (x4 ph / 2)) in *. split.
  - rewrite <- Hs. ring.
  - intros [E | (E1 & E2)].
    + assert (r = 0).
      { subst r. rewrite E. replace (0 / 2) with 0 by lra. apply sqrt_0. }
      clearbody r. subst r. split; ring.
    + rewrite E1, E2. split; ring.
Qed.

Lemma initialSpectrum_energy_witness :
  exists h0 : vec4,
    initialSpectrum_main (fun _ => Some (Vec4 2 0 0 1)) (fun _ => Some (Vec4 3 4 0 1))
      (Vec2 0 0) = Some h0
    /\ x4 h0 * x4 h0 + y4 h0 * y4 h0 = 2 / 2 * (3 * 3 + 4 * 4).
Proof.
  destruct (initialSpectrum_energy (fun _ => Some (Vec4 2 0 0 1))
              (fun _ => Some (Vec4 3 4 0 1)) (Vec2 0 0) (Vec4 2 0 0 1) (Vec4 3 4 0 1)
              eq_refl eq_refl) as (h0 & H & E & _).
  - cbn. lra.
  - exists h0. split; assumption.
Defined.

(** ** The texel grid *)

Lemma length_ge_x (k : vec2) : Rabs (x2 k) <= length k.
Proof.
  unfold length, dot. rewrite <- sqrt_Rsqr_abs. apply sqrt_le_1.
  - apply Rle_0_sqr.
  - nra.
  - unfold Rsqr. nra.
Qed.

(** X23. On a grid of even resolution no texel centre has the zero wave
    vector: the wave vector of texel [(i, j)] is
    [pi * (2i + 1 - N, 2j + 1 - N)], an odd multiple of [pi] in each
    component, so its length is at least [pi] and, under a positive wind
    speed and gravity, [phillips] never takes its guard there but
    evaluates the full expression. *)
Theorem texel_centres_miss_the_guard (N i j : Z) (u : PhillipsUniforms) :
  N <> 0%Z ->
  Z.even N = true ->
  0 < uWindSpeed u ->
  0 < uGravity u ->
  let k := wave_vector N (texel_uv N i j) in
  k = Vec2 (PI * IZR (2 * i + 1 - N)) (PI * IZR (2 * j + 1 - N))
  /\ PI <= length k
  /\ phillips u k = Some (phillips_value u k).
Proof.
  intros HN Heven Hw Hg k.
  assert (HN' : IZR N <> 0) by now apply not_0_IZR.
  assert (Ek : k = Vec2 (PI * IZR (2 * i + 1 - N)) (PI * IZR (2 * j + 1 - N))).
  { subst k. unfold wave_vector, texel_uv. cbn [x2 y2].
    rewrite !minus_IZR, !plus_IZR, !mult_IZR.
    replace 2.0 with 2 by lra. replace 0.5 with (1 / 2) by lra.
    f_equal; field; assumption. }
  assert (Hlen : PI <= length k).
  { eapply Rle_trans; [| apply length_ge_x]. rewrite Ek. cbn [x2].
    rewrite Rabs_mult. pose proof PI_RGT_0 as Hpi. unfold PI in *.
    rewrite (Rabs_right Rtrigo1.PI) by lra.
    assert (Hodd : (2 * i + 1 - N <> 0)%Z).
    { intros E. apply Z.even_spec in Heven. destruct Heven as [m Hm]. lia. }
    assert (1 <= Rabs (IZR (2 * i + 1 - N))).
    { rewrite <- abs_IZR. apply IZR_le. lia. }
    nra. }
  split; [exact Ek |]. split; [exact Hlen |].
  apply phillips_away; try assumption.
  pose proof PI2_1 as Hpi. unfold PI in *. lra.
Qed.

Lemma texel_centres_miss_the_guard_witness :
  PI <= length (wave_vector RESOLUTION (texel_uv RESOLUTION 128 128)).
Proof.
  refine (proj1 (proj2 (texel_centres_miss_the_guard RESOLUTION 128 128
            (phillipsSpectrumShader_uniforms config) _ _ _ _))).
  - unfold RESOLUTION. lia.
  - reflexivity.
  - cbn. unfold WIND_SPEED. lra.
  - cbn. unfold GRAVITY. lra.
Defined.

(** ** The colour ramp of [Ocean.jsx] *)

(** X24. The colour ramp of the ocean is not clamped.  With a positive
    multiplier the fragment colour is the depth colour at elevation
    [-offset] and the surface colour at [1/multiplier - offset]; between
    the two elevations every channel lies between the two colours, and
    above the second a channel in which the surface colour is the
    brighter one exceeds it. *)
Theorem colour_ramp_unclamped (uDepthColor uSurfaceColor : vec3)
    (uColorOffset uColorMultiplier vElevation : R) :
  0 < uColorMultiplier ->
  let colour e :=
    heightmap_fragment uDepthColor uSurfaceColor uColorOffset uColorMultiplier e in
  colour (- uColorOffset)
  = Vec4 (x3 uDepthColor) (y3 uDepthColor) (z3 uDepthColor) 1
  /\ colour (1 / uColorMultiplier - uColorOffset)
     = Vec4 (x3 uSurfaceColor) (y3 uSurfaceColor) (z3 uSurfaceColor) 1
  /\ (- uColorOffset <= vElevation <= 1 / uColorMultiplier - uColorOffset ->
      Rmin (x3 uDepthColor) (x3 uSurfaceColor) <= x4 (colour vElevation)
      <= Rmax (x3 uDepthColor) (x3 uSurfaceColor))
  /\ (1 / uColorMultiplier - uColorOffset < vElevation ->
      x3 uDepthColor < x3 uSurfaceColor ->
      x3 uSurfaceColor < x4 (colour vElevation)).
Proof.
  intros Hm colour. subst colour. unfold heightmap_fragment, mix3, mix.
  cbv zeta. cbn [x3 y3 z3 x4].
  assert (Hinv : 1 / uColorMultiplier * uColorMultiplier = 1) by (field; lra).
  split; [| split; [| split]].
  - replace ((- uColorOffset + uColorOffset) * uColorMultiplier) with 0 by ring.
    f_equal; lra.
  - replace ((1 / uColorMultiplier - uColorOffset + uColorOffset) * uColorMultiplier)
      with 1 by (field; lra).
    f_equal; lra.
  - intros (Hlo & Hhi).
    set (w := (vElevation + uColorOffset) * uColorMultiplier).
    assert (Hw : 0 <= w <= 1).
    { subst w. split; [apply Rmult_le_pos; lra |].
      rewrite <- Hinv. apply Rmult_le_compat_r; lra. }
    clearbody w.
    unfold Rmin, Rmax. destruct (Rle_dec (x3 uDepthColor) (x3 uSurfaceColor)); nra.
  - intros Hhi Hlt.
    set (w := (vElevation + uColorOffset) * uColorMultiplier).
    assert (Hw : 1 < w).
    { subst w. rewrite <- Hinv. apply Rmult_lt_compat_r; lra. }
    clearbody w. nra.
Qed.

Lemma colour_ramp_unclamped_witness :
  heightmap_fragment (Vec3 0 0 0) (Vec3 1 1 1) 0.8 4 (- (0.8)) = Vec4 0 0 0 1.
Proof.
  refine (proj1 (colour_ramp_unclamped (Vec3 0 0 0) (Vec3 1 1 1) 0.8 4 0 _)).
  lra.
Defined.
